(** * AutoDoc: a shallow embedding of [src/autodoc.py]

    The development follows the Python source function by function:
    [LLMClient._call_llm], [LLMClient.generate_openapi_fragment],
    [AutoDoc._process_file], [AutoDoc._generate_index] and [AutoDoc.run].

    - Python [str] values are [string]s; a character stands for a code point
      below 256.
    - Values produced by [yaml.safe_load] and by [json.loads] are the
      inductive type [pyval]; [self.cache] is such a value, whatever
      [json.loads] made of the cache file.
    - The mutable parts of an [AutoDoc] object ([self.cache]), the output
      directory on disk and the console are one record [state], threaded
      through an exception/state monad [M].
    - Everything behind a library or network boundary (the HTTP endpoint,
      [yaml], [json], [hashlib], the validator, the source files) is a field
      of the record [Env]. *)

From Stdlib Require Import ZArith Ascii String List Bool Lia.
From stdpp Require Import gmap strings list sorting.

Set Warnings "-register-all".
Local Open Scope string_scope.

(** ** Python string operations *)

Module PyStr.

(** [s.startswith(p)] *)
Definition startswith (p s : string) : bool := String.prefix p s.

(** [s[n:]] *)
Fixpoint drop (n : nat) (s : string) : string :=
  match n, s with
  | O, _ => s
  | S _, EmptyString => EmptyString
  | S k, String _ t => drop k t
  end.

(** [s[:n]] *)
Fixpoint take (n : nat) (s : string) : string :=
  match n, s with
  | O, _ => EmptyString
  | S _, EmptyString => EmptyString
  | S k, String c t => String c (take k t)
  end.

(** [s.endswith(p)] *)
Definition endswith (p s : string) : bool :=
  (String.length p <=? String.length s)%nat
  && String.eqb (drop (String.length s - String.length p) s) p.

(** [s[:-n]] for [0 < n] *)
Definition drop_last (n : nat) (s : string) : string :=
  take (String.length s - n) s.

(** [sub in s] *)
Fixpoint contains (sub s : string) : bool :=
  startswith sub s ||
  match s with
  | EmptyString => false
  | String _ t => contains sub t
  end.

(** [c.isspace()] for a code point below 256 *)
Definition isspace (c : ascii) : bool :=
  let n := nat_of_ascii c in
  ((9 <=? n) && (n <=? 13) || (28 <=? n) && (n <=? 32)
   || (n =? 133) || (n =? 160))%nat.

Fixpoint lstrip (s : string) : string :=
  match s with
  | EmptyString => EmptyString
  | String c t => if isspace c then lstrip t else s
  end.

Fixpoint rstrip (s : string) : string :=
  match s with
  | EmptyString => EmptyString
  | String c t =>
      match rstrip t with
      | EmptyString => if isspace c then EmptyString else String c EmptyString
      | t' => String c t'
      end
  end.

(** [s.strip()] *)
Definition strip (s : string) : string := rstrip (lstrip s).

(** [sep.join(l)] *)
Fixpoint join (sep : string) (l : list string) : string :=
  match l with
  | [] => EmptyString
  | [x] => x
  | x :: rest => x ++ sep ++ join sep rest
  end.

(** [s.rfind('.')], as the length of the prefix before the last dot *)
Fixpoint rfind_dot (s : string) : option nat :=
  match s with
  | EmptyString => None
  | String c t =>
      match rfind_dot t with
      | Some i => Some (S i)
      | None => if Ascii.eqb c "."%char then Some O else None
      end
  end.

End PyStr.

(** ** Values returned by [yaml.safe_load] and [json.loads]

    The scalars, sequences and mappings of YAML, and with them the values
    of JSON. A float is kept as a mantissa and an exponent, which is all
    its truth value needs. A [dict] keeps its entries in insertion order.
    [PDate] is a YAML timestamp ([datetime.date] or [datetime.datetime],
    kept as its text), [PBytes] a [!!binary] scalar and [PSet] a [!!set]:
    [yaml.safe_load] returns them, [json.dumps] refuses them. Values that
    contain themselves through an alias are outside this type. *)

Inductive pyval : Type :=
  | PNone
  | PBool (b : bool)
  | PInt (z : Z)
  | PFloat (mantissa exponent : Z)
  | PStr (s : string)
  | PList (items : list pyval)
  | PDict (entries : list (pyval * pyval))
  | PDate (iso : string)
  | PBytes (data : string)
  | PSet (items : list pyval).

(** [v == s] for a [str] [s]: only a [str] is equal to a [str]. *)
Definition eq_str (s : string) (v : pyval) : bool :=
  match v with
  | PStr t => String.eqb t s
  | _ => false
  end.

(** [bool(v)] *)
Definition truthy (v : pyval) : bool :=
  match v with
  | PNone => false
  | PBool b => b
  | PInt z => negb (z =? 0)%Z
  | PFloat m _ => negb (m =? 0)%Z
  | PStr s => negb (String.eqb s "")
  | PList l => match l with [] => false | _ => true end
  | PDict d => match d with [] => false | _ => true end
  | PDate _ => true
  | PBytes b => negb (String.eqb b "")
  | PSet l => match l with [] => false | _ => true end
  end.

(** [d.get(key)] on the entries of a [dict], for a [str] key *)
Fixpoint dict_lookup (key : string) (d : list (pyval * pyval)) : option pyval :=
  match d with
  | [] => None
  | (k, v) :: rest => if eq_str key k then Some v else dict_lookup key rest
  end.

(** [d.get(key, default)] *)
Definition dict_get (key : string) (default : pyval) (d : list (pyval * pyval)) : pyval :=
  match dict_lookup key d with
  | Some v => v
  | None => default
  end.

(** [d[key] = v] on the entries of a [dict]: the value of an existing key
    is replaced in place, a new key goes to the end. *)
Fixpoint dict_set (key : string) (v : pyval) (d : list (pyval * pyval))
    : list (pyval * pyval) :=
  match d with
  | [] => [(PStr key, v)]
  | (k, x) :: rest =>
      if eq_str key k then (k, v) :: rest else (k, x) :: dict_set key v rest
  end.

(** [json.dumps(v)] does not raise [TypeError]: no timestamp, binary or set
    anywhere in [v], and every key of a mapping is a [str], a number, a
    [bool] or [None]. *)
Definition json_key (k : pyval) : bool :=
  match k with
  | PNone | PBool _ | PInt _ | PFloat _ _ | PStr _ => true
  | _ => false
  end.

Fixpoint json_ok (v : pyval) : bool :=
  match v with
  | PNone | PBool _ | PInt _ | PFloat _ _ | PStr _ => true
  | PList l => forallb json_ok l
  | PDict d => forallb (fun kv => match kv with (k, x) => json_key k && json_ok x end) d
  | PDate _ | PBytes _ | PSet _ => false
  end.

(** ** Exceptions and the state monad *)

Inductive exn : Type :=
  | FileExistsError
  | FileNotFoundError
  | NotADirectoryError
  | IsADirectoryError
  | AttributeError
  | TypeError
  | KeyError.

Inductive result (A : Type) : Type :=
  | Ok (a : A)
  | Raise (e : exn).
Arguments Ok {A} a.
Arguments Raise {A} e.

(** ** Python operators on these values *)

(** [key in v] for a [str] key: substring test on a [str], membership on a
    [list] or a [set], key membership on a [dict]; the other values are not
    iterable, and [bytes] takes no [str]. *)
Definition py_in (key : string) (v : pyval) : result bool :=
  match v with
  | PStr s => Ok (PyStr.contains key s)
  | PList l => Ok (existsb (eq_str key) l)
  | PDict d => Ok (existsb (fun kv => eq_str key (fst kv)) d)
  | PSet l => Ok (existsb (eq_str key) l)
  | _ => Raise TypeError
  end.

(** [v.get]: only a [dict] has the attribute. *)
Definition as_dict (v : pyval) : result (list (pyval * pyval)) :=
  match v with
  | PDict d => Ok d
  | _ => Raise AttributeError
  end.

(** [v[key]] for a [str] key *)
Definition subscript (key : string) (v : pyval) : result pyval :=
  match v with
  | PDict d =>
      match dict_lookup key d with
      | Some x => Ok x
      | None => Raise KeyError
      end
  | _ => Raise TypeError
  end.

(** [v[key] = x] for a [str] key: only a [dict] takes it. *)
Definition setitem (key : string) (x : pyval) (v : pyval) : result pyval :=
  match v with
  | PDict d => Ok (PDict (dict_set key x d))
  | _ => Raise TypeError
  end.

(** What sits at a path under the output directory [docs/]. *)
Inductive node : Type :=
  | File (content : string)
  | Dir.

(** Console output, one constructor per [print] of [AutoDoc]. *)
Inductive event : Type :=
  | LogStart
  | LogNoFiles
  | LogFound (n : nat)
  | LogProcessing (rel : string)
  | LogReadError (msg : string)
  | LogSkipping
  | LogSaved (out : list string)
  | LogDetecting
  | LogParseFailed (msg : string)
  | LogValidationError (msg : string)
  | LogValidationException (msg : string)
  | LogSpec (out : list string)
  | LogSwagger (out : list string)
  | LogIndex
  | LogComplete.

(** [cache] is [self.cache]; [docs] maps a path relative to [self.docs_dir]
    (a list of components, [[]] being the directory itself) to what is on
    disk there; [log] is the console, latest line last. *)
Record state : Type := mkState {
  cache : pyval;
  docs : gmap (list string) node;
  log : list event
}.

Definition M (A : Type) : Type := state -> result A * state.

Definition ret {A} (a : A) : M A := fun st => (Ok a, st).

Definition bind {A B} (m : M A) (k : A -> M B) : M B :=
  fun st =>
    match m st with
    | (Ok a, st') => k a st'
    | (Raise e, st') => (Raise e, st')
    end.

Definition raise {A} (e : exn) : M A := fun st => (Raise e, st).

Notation "x <- m ;; k" := (bind m (fun x => k))
  (at level 100, m at next level, right associativity).
Notation "m ;;; k" := (bind m (fun _ => k))
  (at level 100, right associativity).

Definition print (ev : event) : M unit :=
  fun st => (Ok tt, mkState (cache st) (docs st) (log st ++ [ev])).

Definition get_cache : M pyval :=
  fun st => (Ok (cache st), st).

Definition get_docs : M (gmap (list string) node) :=
  fun st => (Ok (docs st), st).

Definition put_cache (c : pyval) : M unit :=
  fun st => (Ok tt, mkState c (docs st) (log st)).

Definition put_docs (d : gmap (list string) node) : M unit :=
  fun st => (Ok tt, mkState (cache st) d (log st)).

Definition lift {A} (r : result A) : M A := fun st => (r, st).

(** [self.cache[key] = h] *)
Definition cache_set (key h : string) : M unit :=
  c <- get_cache ;;
  c' <- lift (setitem key (PStr h) c) ;;
  put_cache c'.

(** ** Paths and the output directory *)

(** A scanned source file, as its path relative to [self.source_dir]:
    [rel_parent] holds the components of [rel_path.parent] and [fname] is
    [file_path.name]. *)
Record src_path : Type := mkPath {
  rel_parent : list string;
  fname : string
}.

Definition parts (f : src_path) : list string := rel_parent f ++ [fname f].

(** [str(rel_path)] on a POSIX system *)
Definition rel_str (f : src_path) : string := PyStr.join "/" (parts f).

(** [PurePath.stem] (pathlib up to Python 3.13): the name without its last
    suffix; a leading or a trailing dot does not start a suffix. *)
Definition stem (name : string) : string :=
  match PyStr.rfind_dot name with
  | Some i =>
      if ((0 <? i) && (i <? String.length name - 1))%nat
      then PyStr.take i name else name
  | None => name
  end.

(** [self.docs_dir / rel_path.parent / (file_path.stem + ext)], relative to
    [self.docs_dir] *)
Definition out_path (f : src_path) (ext : string) : list string :=
  rel_parent f ++ [stem (fname f) ++ ext].

Definition exists_ (p : list string) (d : gmap (list string) node) : bool :=
  match d !! p with
  | Some _ => true
  | None => false
  end.

(** One [os.mkdir] with [exist_ok=True] at [p], whose parent is known to be
    a directory; [last] tells whether [p] is the path [mkdir] was called on
    (an existing regular file there is [FileExistsError], one further up is
    [NotADirectoryError]). *)
Definition mkdir_one (p : list string) (last : bool)
    (d : gmap (list string) node) : result (gmap (list string) node) :=
  match d !! p with
  | Some Dir => Ok d
  | Some (File _) => Raise (if last then FileExistsError else NotADirectoryError)
  | None => Ok (<[p := Dir]> d)
  end.

(** [Path.mkdir(parents=True, exist_ok=True)] on [base ++ rest], going down
    from [base]. *)
Fixpoint mkdir_from (base rest : list string)
    (d : gmap (list string) node) : result (gmap (list string) node) :=
  match rest with
  | [] => mkdir_one base true d
  | c :: rest' =>
      match mkdir_one base false d with
      | Ok d' => mkdir_from (base ++ [c]) rest' d'
      | Raise e => Raise e
      end
  end.

Definition mkdir_parents (p : list string) : M unit :=
  d <- get_docs ;;
  d' <- lift (mkdir_from [] p d) ;;
  put_docs d'.

(** [self.docs_dir.mkdir(exist_ok=True)]; the parent is [self.source_dir],
    which exists. *)
Definition mkdir_docs : M unit :=
  d <- get_docs ;;
  d' <- lift (mkdir_one [] true d) ;;
  put_docs d'.

(** [Path.write_text] and [open(path, 'w')]: the parent must be a directory
    and the path itself must not be one. *)
Definition write_file (p : list string) (content : string)
    (d : gmap (list string) node) : result (gmap (list string) node) :=
  match d !! removelast p with
  | None => Raise FileNotFoundError
  | Some (File _) => Raise NotADirectoryError
  | Some Dir =>
      match d !! p with
      | Some Dir => Raise IsADirectoryError
      | _ => Ok (<[p := File content]> d)
      end
  end.

Definition write_text (p : list string) (content : string) : M unit :=
  d <- get_docs ;;
  d' <- lift (write_file p content d) ;;
  put_docs d'.

(** ** The environment of a run *)

(** Outcome of the HTTP exchange inside [_call_llm]: every [Exception]
    raised under its [try] (timeout, transport error, a response body
    without [choices[0].message.content], a content that is no [str]) is
    [Failure] with [str(e)]. What [except Exception] does not catch (a
    [BaseException] such as [asyncio.CancelledError], which ends the
    process or the task) is outside the model. *)
Inductive llm_response : Type :=
  | Failure (e : string)
  | Content (content : string).

(** Outcome of [Path.read_text] on a source file. *)
Inductive read_result : Type :=
  | ReadOk (code : string)
  | ReadFailed (msg : string).

(** Outcome of [yaml.safe_load]. *)
Inductive yaml_result : Type :=
  | Parsed (v : pyval)
  | ParseError (msg : string).

(** Outcome of [openapi_spec_validator.validate]. *)
Inductive validation : Type :=
  | Valid
  | Invalid (msg : string)
  | Crashed (msg : string).

(** The source tree under [self.source_dir], in [os.walk] order. *)
Inductive tree : Type :=
  | TFile (name : string)
  | TDir (name : string) (children : list tree).

Record Env : Type := mkEnv {
  project_name : string;                  (* self.project_name *)
  source : list tree;                     (* content of self.source_dir *)
  read_text : src_path -> read_result;
  md5 : string -> string;                 (* hashlib.md5(..).hexdigest() *)
  docs_prompt : string -> string -> string;   (* f-string of generate_docs *)
  openapi_prompt : string -> string;      (* f-string of generate_openapi_fragment *)
  post : string -> llm_response;          (* the chat/completions endpoint *)
  yaml_safe_load : string -> yaml_result;
  validate : pyval -> validation;
  yaml_dump : pyval -> string;
  json_dumps : pyval -> string;           (* json.dumps(v), where it does not raise *)
  py_str : pyval -> string;               (* str(v), as an f-string formats it *)
  html_head : string;                     (* _create_swagger_html, up to <title> *)
  html_mid : string;                      (* from </title> to "spec: " *)
  html_tail : string;                     (* the rest of the page *)
  cache_dumps : pyval -> string;          (* json.dumps(self.cache, indent=2),
                                             where it does not raise *)
  cache_loads : string -> option pyval    (* json.loads; None when it raises *)
}.

(** ** [LLMClient] *)

Section LLMClient.
Context (E : Env).

(** The "basic cleanup" of [_call_llm], lines 133-142. *)
Definition cleanup (content : string) : string :=
  let content :=
    if PyStr.startswith "```markdown" content then PyStr.drop 11 content
    else if PyStr.startswith "```" content then
      if negb (PyStr.contains "yaml" (PyStr.take 10 content))
      then PyStr.drop 3 content else content
    else content in
  let content :=
    if PyStr.endswith "```" content then PyStr.drop_last 3 content
    else content in
  PyStr.strip content.

Definition call_llm (prompt : string) : string :=
  match post E prompt with
  | Content content => cleanup content
  | Failure e => "Error: " ++ e
  end.

Definition generate_docs (code language : string) : string :=
  call_llm (docs_prompt E code language).

(** The fence clean-up of [generate_openapi_fragment], lines 106-111. *)
Definition unfence (result : string) : string :=
  let result :=
    if PyStr.startswith "```yaml" result then PyStr.drop 7 result else result in
  let result :=
    if PyStr.startswith "```" result then PyStr.drop 3 result else result in
  if PyStr.endswith "```" result then PyStr.drop_last 3 result else result.

Definition generate_openapi_fragment (code : string) : M pyval :=
  let result := call_llm (openapi_prompt E code) in
  match yaml_safe_load E (unfence result) with
  | Parsed v => ret v
  | ParseError msg => print (LogParseFailed msg) ;;; ret PNone
  end.

End LLMClient.

(** ** [AutoDoc] *)

(** The heuristic of line 235. *)
Definition api_like (code : string) : bool :=
  existsb (fun k => PyStr.contains k code)
    ["APIView"; "route"; "def get("; "def post("].

(** [str(rel_path) in self.cache and self.cache[str(rel_path)] == current_hash],
    on whatever [self.cache] is. *)
Definition cache_hit (c : pyval) (key current_hash : string) : result bool :=
  match py_in key c with
  | Raise e => Raise e
  | Ok false => Ok false
  | Ok true =>
      match subscript key c with
      | Raise e => Raise e
      | Ok v => Ok (eq_str current_hash v)
      end
  end.

(** The dictionary built at lines 241-250. *)
Definition assemble (project file_name : string) (fragment : list (pyval * pyval)) : pyval :=
  PDict [
    (PStr "openapi", PStr "3.0.0");
    (PStr "info", PDict [
       (PStr "title",
        dict_get "title" (PStr (project ++ " API's Documentation")) fragment);
       (PStr "version", PStr "1.0.0");
       (PStr "description",
        dict_get "description" (PStr ("Auto-generated spec for " ++ file_name)) fragment)
     ]);
    (PStr "paths", dict_get "paths" (PDict []) fragment);
    (PStr "components",
     dict_get "components" (PDict [(PStr "schemas", PDict [])]) fragment)
  ].

Section AutoDoc.
Context (E : Env).

(** [_create_swagger_html]: [json.dumps(spec)], which raises [TypeError]
    on a value it cannot serialise, then [spec['info']['title']] inside the
    page template. *)
Definition create_swagger_html (spec : pyval) : result string :=
  if json_ok spec then
    let spec_json := json_dumps E spec in
    match subscript "info" spec with
    | Raise e => Raise e
    | Ok info =>
        match subscript "title" info with
        | Raise e => Raise e
        | Ok title =>
            Ok (html_head E ++ py_str E title ++ html_mid E ++ spec_json ++ html_tail E)
        end
    end
  else Raise TypeError.

(** The [try: validate(spec)] block, lines 253-260: both handlers only print. *)
Definition validate_spec (spec : pyval) : M unit :=
  match validate E spec with
  | Valid => ret tt
  | Invalid msg => print (LogValidationError msg)
  | Crashed msg => print (LogValidationException msg)
  end.

(** Lines 239-271, once the fragment has been obtained. *)
Definition process_fragment (f : src_path) (fragment : pyval) : M unit :=
  has_paths <- lift (if truthy fragment then py_in "paths" fragment else Ok false) ;;
  if has_paths : bool then
    d <- lift (as_dict fragment) ;;
    let spec := assemble (project_name E) (fname f) d in
    validate_spec spec ;;;
    let spec_path := out_path f ".yaml" in
    write_text spec_path (yaml_dump E spec) ;;;
    print (LogSpec spec_path) ;;;
    html_content <- lift (create_swagger_html spec) ;;
    let html_path := out_path f ".html" in
    write_text html_path html_content ;;;
    print (LogSwagger html_path)
  else ret tt.

(** Lines 220-271 of [_process_file]: the unit is new or has changed. *)
Definition process_changed (f : src_path) (code current_hash : string) : M unit :=
  let doc_content := generate_docs E code "python" in
  cache_set (rel_str f) current_hash ;;;
  let md_path := out_path f ".md" in
  mkdir_parents (rel_parent f) ;;;
  write_text md_path doc_content ;;;
  print (LogSaved md_path) ;;;
  if api_like code then
    print LogDetecting ;;;
    fragment <- generate_openapi_fragment E code ;;
    process_fragment f fragment
  else ret tt.

(** [_process_file] *)
Definition process_file (f : src_path) : M unit :=
  print (LogProcessing (rel_str f)) ;;;
  match read_text E f with
  | ReadFailed msg => print (LogReadError msg)
  | ReadOk code =>
      let current_hash := md5 E code in
      c <- get_cache ;;
      unchanged <- lift (cache_hit c (rel_str f) current_hash) ;;
      if unchanged : bool then print LogSkipping
      else process_changed f code current_hash
  end.

(** [_scan_files]: [os.walk] from the root, pruning [skip_dirs], keeping the
    names that end in [.py]. *)
Definition skip_dirs : list string :=
  [".git"; "__pycache__"; "vocab"; "venv"; "env"; "node_modules"; "docs"].

Definition only_files (walk : tree -> list src_path) (t : tree) : list src_path :=
  match t with TFile _ => walk t | TDir _ _ => [] end.

Definition only_dirs (walk : tree -> list src_path) (t : tree) : list src_path :=
  match t with TDir _ _ => walk t | TFile _ => [] end.

(** [walk root t]: what the traversal appends to [found] for the entry [t]
    of the directory [root]: first the files of a directory, then its
    sub-directories. *)
Fixpoint walk (root : list string) (t : tree) : list src_path :=
  match t with
  | TFile name =>
      if PyStr.endswith ".py" name then [mkPath root name] else []
  | TDir name children =>
      if existsb (String.eqb name) skip_dirs then []
      else
        flat_map (only_files (walk (root ++ [name]))) children
        ++ flat_map (only_dirs (walk (root ++ [name]))) children
  end.

Definition scan_files : list src_path :=
  flat_map (only_files (walk [])) (source E)
  ++ flat_map (only_dirs (walk [])) (source E).

(** Order of [Path] objects: their components, compared as a tuple of
    [str]. *)
Fixpoint parts_compare (a b : list string) : comparison :=
  match a, b with
  | [], [] => Eq
  | [], _ :: _ => Lt
  | _ :: _, [] => Gt
  | x :: a', y :: b' =>
      match String.compare x y with
      | Eq => parts_compare a' b'
      | c => c
      end
  end.

Definition path_le (f g : src_path) : Prop :=
  parts_compare (parts f) (parts g) <> Gt.

#[global] Instance path_le_dec : RelDecision path_le.
Proof. intros f g. unfold path_le. apply _. Defined.

(** [sorted(files)] *)
Definition sorted (files : list src_path) : list src_path :=
  merge_sort path_le files.

(** Target of the prose link, [rel_path.parent / (f.stem + ".md")]. *)
Definition doc_rel (f : src_path) : string :=
  PyStr.join "/" (out_path f ".md").

Definition openapi_target (f : src_path) : string := stem (fname f) ++ ".yaml".
Definition swagger_target (f : src_path) : string := stem (fname f) ++ ".html".

(** The [links] list of one loop iteration of [_generate_index]. *)
Definition index_links (d : gmap (list string) node) (f : src_path) : list string :=
  (if exists_ (out_path f ".yaml") d
   then ["[OpenAPI](" ++ openapi_target f ++ ")"] else [])
  ++ (if exists_ (out_path f ".html") d
      then ["[Swagger UI](" ++ swagger_target f ++ ")"] else []).

Definition index_entry (d : gmap (list string) node) (f : src_path) : string :=
  match index_links d f with
  | [] => "- [" ++ rel_str f ++ "](" ++ doc_rel f ++ ")"
  | links =>
      "- [" ++ rel_str f ++ "](" ++ doc_rel f ++ ") ("
      ++ PyStr.join " | " links ++ ")"
  end.

Definition index_header : list string :=
  ["# Project Documentation"; "
Generated by Smriti Auto-Doc
"; "## Modules
"].

Definition index_lines (d : gmap (list string) node) (files : list src_path) : list string :=
  index_header ++ map (index_entry d) (sorted files).

(** [_generate_index] *)
Definition generate_index (files : list src_path) : M unit :=
  d <- get_docs ;;
  write_text ["README.md"] (PyStr.join "
" (index_lines d files)) ;;;
  print LogIndex.

Definition cache_file : list string := [".autodoc_cache.json"].

(** [_load_cache], called from [__init__]: whatever [json.loads] returns,
    a mapping or not, and [{}] when the file is missing or reading or
    parsing it raises. *)
Definition load_cache (d : gmap (list string) node) : pyval :=
  match d !! cache_file with
  | Some (File text) =>
      match cache_loads E text with
      | Some c => c
      | None => PDict []
      end
  | _ => PDict []
  end.

(** [_save_cache]: [json.dumps(self.cache, indent=2)] is evaluated first
    and raises [TypeError] on a value it cannot serialise, before anything
    is written. *)
Definition save_cache : M unit :=
  c <- get_cache ;;
  if json_ok c then write_text cache_file (cache_dumps E c)
  else raise TypeError.

(** [for file_path in files: await self._process_file(file_path)] *)
Fixpoint process_all (files : list src_path) : M unit :=
  match files with
  | [] => ret tt
  | f :: rest => process_file f ;;; process_all rest
  end.

(** [run] *)
Definition run : M unit :=
  print LogStart ;;;
  mkdir_docs ;;;
  let files := scan_files in
  match files with
  | [] => print LogNoFiles
  | _ =>
      print (LogFound (length files)) ;;;
      process_all files ;;;
      generate_index files ;;;
      save_cache ;;;
      print LogComplete
  end.

End AutoDoc.

(** * Definitions used by the statements *)

(** The value [self.cache] holds under [k] when it is a mapping; a cache
    that is no mapping has no entry. *)
Definition cache_get (c : pyval) (k : string) : option pyval :=
  match c with
  | PDict d => dict_lookup k d
  | _ => None
  end.

(** The cache is a mapping and does not hold the fingerprint [h] under
    [key]: the hash check lets the unit through and line 224 can store the
    fingerprint. *)
Definition misses (c : pyval) (key h : string) : bool :=
  match c with
  | PDict d =>
      match dict_lookup key d with
      | Some v => negb (eq_str h v)
      | None => true
      end
  | _ => false
  end.

(** [self.cache] once line 224 has stored the fingerprint [h] under [key];
    a cache that is no mapping stays as it is (the assignment raises). *)
Definition stored (c : pyval) (key h : string) : pyval :=
  match setitem key (PStr h) c with
  | Ok c' => c'
  | Raise _ => c
  end.

(** The same environment with another validator. *)
Definition with_validator (E : Env) (v : pyval -> validation) : Env :=
  {| project_name := project_name E;
     source := source E;
     read_text := read_text E;
     md5 := md5 E;
     docs_prompt := docs_prompt E;
     openapi_prompt := openapi_prompt E;
     post := post E;
     yaml_safe_load := yaml_safe_load E;
     validate := v;
     yaml_dump := yaml_dump E;
     json_dumps := json_dumps E;
     py_str := py_str E;
     html_head := html_head E;
     html_mid := html_mid E;
     html_tail := html_tail E;
     cache_dumps := cache_dumps E;
     cache_loads := cache_loads E |}.

(** An index line for the unit [rel] whose prose link goes to [prose] and
    whose OpenAPI and Swagger UI links, when present, go to the given
    targets. *)
Definition entry_line (rel prose : string) (openapi swagger : option string) : string :=
  match openapi, swagger with
  | None, None => "- [" ++ rel ++ "](" ++ prose ++ ")"
  | Some a, None =>
      "- [" ++ rel ++ "](" ++ prose ++ ") (" ++ ("[OpenAPI](" ++ a ++ ")") ++ ")"
  | None, Some b =>
      "- [" ++ rel ++ "](" ++ prose ++ ") (" ++ ("[Swagger UI](" ++ b ++ ")") ++ ")"
  | Some a, Some b =>
      "- [" ++ rel ++ "](" ++ prose ++ ") ("
      ++ (("[OpenAPI](" ++ a ++ ")") ++ " | " ++ ("[Swagger UI](" ++ b ++ ")")) ++ ")"
  end.

Definition is_file (d : gmap (list string) node) (p : list string) : bool :=
  match d !! p with
  | Some (File _) => true
  | _ => false
  end.

Definition is_dir_at (d : gmap (list string) node) (p : list string) : bool :=
  match d !! p with
  | Some Dir => true
  | _ => false
  end.

(** [base], then [base] extended by one more component of [rest] at a
    time: the directories [mkdir_from base rest] visits. *)
Fixpoint prefixes_from (base rest : list string) : list (list string) :=
  base :: match rest with
          | [] => []
          | c :: rest' => prefixes_from (base ++ [c])%list rest'
          end.

(** No directory on the way down to [p] is taken by a regular file. *)
Definition dirs_free (d : gmap (list string) node) (p : list string) : bool :=
  forallb (fun q => negb (is_file d q)) (prefixes_from [] p).

Definition has_paths_key (v : pyval) : bool :=
  match v with
  | PDict d => match dict_lookup "paths" d with Some _ => true | None => false end
  | _ => false
  end.

(** The fragment [generate_openapi_fragment] returns, without its print. *)
Definition fragment_of (E : Env) (code : string) : pyval :=
  match yaml_safe_load E (unfence (call_llm E (openapi_prompt E code))) with
  | Parsed v => v
  | ParseError _ => PNone
  end.

(** What the validation block prints. *)
Definition validation_log (v : validation) : list event :=
  match v with
  | Valid => []
  | Invalid msg => [LogValidationError msg]
  | Crashed msg => [LogValidationException msg]
  end.

(** What [generate_openapi_fragment] prints. *)
Definition parse_log (E : Env) (code : string) : list event :=
  match yaml_safe_load E (unfence (call_llm E (openapi_prompt E code))) with
  | Parsed _ => []
  | ParseError msg => [LogParseFailed msg]
  end.

Ltac step :=
  unfold write_text, mkdir_parents, mkdir_docs;
  unfold cache_set;
  unfold bind, ret, lift, print, get_cache, get_docs, put_docs, put_cache;
  simpl.

(** The rest of [process_changed] once the prose document is on disk. *)
Definition after_prose (E : Env) (f : src_path) (code : string) : M unit :=
  if api_like code then
    print LogDetecting ;;;
    fragment <- generate_openapi_fragment E code ;;
    process_fragment E f fragment
  else ret tt.

Definition entered (f : src_path) (st : state) : state :=
  mkState (cache st) (docs st) (log st ++ [LogProcessing (rel_str f)]).

(** [d'] is [d] with directories added at paths that were free. *)
Definition adds_dirs (d d' : gmap (list string) node) : Prop :=
  forall q, d' !! q = d !! q \/ (d !! q = None /\ d' !! q = Some Dir).

(** The three artifact paths of a unit. *)
Definition artifacts (f : src_path) : list (list string) :=
  [out_path f ".md"; out_path f ".yaml"; out_path f ".html"].

(** No component of the unit's relative path holds a separator, as for
    every path [os.walk] yields. *)
Definition plain_name (s : string) : bool := negb (PyStr.contains "/" s).

Definition plain_path (f : src_path) : bool := forallb plain_name (parts f).

(** The content of the regular file at [q], if there is one. *)
Definition file_at (d : gmap (list string) node) (q : list string) : option string :=
  match d !! q with
  | Some (File c) => Some c
  | _ => None
  end.

(** [if s.endswith("```"): s = s[:-3]], the closing step both clean-ups
    share. *)
Definition strip_closer (s : string) : string :=
  if PyStr.endswith "```" s then PyStr.drop_last 3 s else s.

(** The text is empty or begins with a character that is no blank. *)
Definition starts_unspaced (s : string) : Prop :=
  match s with
  | EmptyString => True
  | String c _ => PyStr.isspace c = false
  end.

(** [located root t f]: the file [f] sits in the entry [t] of the directory
    [root], at any depth. *)
Inductive located : list string -> tree -> src_path -> Prop :=
  | located_file (root : list string) (name : string) :
      located root (TFile name) (mkPath root name)
  | located_dir (root : list string) (name : string) (children : list tree)
      (c : tree) (f : src_path) :
      In c children -> located (root ++ [name]) c f ->
      located root (TDir name children) f.

(** The directory name is one [_scan_files] prunes. *)
Definition skipped (name : string) : bool := existsb (String.eqb name) skip_dirs.

(** What a unit prints when it is passed over: after the hash check, or
    because it cannot be read. *)
Definition skip_log (E : Env) (f : src_path) : list event :=
  [LogProcessing (rel_str f);
   match read_text E f with
   | ReadOk _ => LogSkipping
   | ReadFailed msg => LogReadError msg
   end].


(** ** A small project to evaluate the model on

    [src/main.py] is plain code and [src/api.py] holds a view class, as in
    the fixtures of [tests/test_autodoc.py]; the collaborators are given per
    scenario. *)
Module Demo.

Definition main_py : src_path := mkPath ["src"] "main.py".
Definition api_py : src_path := mkPath ["src"] "api.py".

Definition main_code : string := "print('hello')".
Definition api_code : string := "class APIView:
    def get(self): pass".

Definition env (tree : list tree) (endpoint : string -> llm_response)
    (load : string -> yaml_result) (validator : pyval -> validation) : Env :=
  {| project_name := "Demo";
     source := tree;
     read_text := fun f =>
       if String.eqb (fname f) "api.py" then ReadOk api_code else ReadOk main_code;
     md5 := fun s => "md5:" ++ s;
     docs_prompt := fun code language => "DOCS " ++ language ++ " " ++ code;
     openapi_prompt := fun code => "OPENAPI " ++ code;
     post := endpoint;
     yaml_safe_load := load;
     validate := validator;
     yaml_dump := fun _ => "<yaml>";
     json_dumps := fun _ => "<json>";
     py_str := fun v => match v with PStr s => s | _ => "?" end;
     html_head := "<title>";
     html_mid := "</title>";
     html_tail := "</html>";
     cache_dumps := fun _ => "{}";
     cache_loads := fun _ => None |}.

Definition project : list tree := [TDir "src" [TFile "main.py"; TFile "api.py"]].

(** A fresh run: empty cache, no output directory yet, silent console. *)
Definition fresh : state := mkState (PDict []) ∅ [].

(** The endpoint answers every request with a fenced document. *)
Definition answers (prompt : string) : llm_response :=
  Content "```markdown
# Doc
```".

(** The endpoint is unreachable. *)
Definition times_out (prompt : string) : llm_response := Failure "timeout".

(** The fragment of [test_openapi_generation]. *)
Definition test_fragment : list (pyval * pyval) :=
  [(PStr "paths",
    PDict [(PStr "/api/test",
            PDict [(PStr "get", PDict [(PStr "summary", PStr "Test Endpoint")])])])].

(** [yaml.safe_load] yields that fragment. *)
Definition one_path (text : string) : yaml_result := Parsed (PDict test_fragment).


(** [yaml.safe_load] yields a plain scalar, the text itself. *)
Definition scalar (text : string) : yaml_result := Parsed (PStr text).

(** The output directory a previous run left behind for a project whose
    only unit was [old.py]. *)
Definition previous : state :=
  mkState (PDict [])
    {[ [] := Dir;
       ["README.md"] := File "# Project Documentation

Generated by Smriti Auto-Doc

## Modules

- [old.py](old.md)" ]} [].

(** [yaml.safe_load] yields a mapping whose title is an unquoted date. *)
Definition dated (text : string) : yaml_result :=
  Parsed (PDict [(PStr "title", PDate "2024-01-15"); (PStr "paths", PDict [])]).

(** [json.loads] on a few texts: an object, [null], an empty array; any
    other text here is no JSON and makes it raise. *)
Definition json_loads (text : string) : option pyval :=
  if String.eqb text "{}" then Some (PDict [])
  else if String.eqb text "null" then Some PNone
  else if String.eqb text "[]" then Some (PList [])
  else None.

(** The same environment with that [json.loads] behind [_load_cache]. *)
Definition reading_cache (base : Env) : Env :=
  {| project_name := project_name base;
     source := source base;
     read_text := read_text base;
     md5 := md5 base;
     docs_prompt := docs_prompt base;
     openapi_prompt := openapi_prompt base;
     post := post base;
     yaml_safe_load := yaml_safe_load base;
     validate := validate base;
     yaml_dump := yaml_dump base;
     json_dumps := json_dumps base;
     py_str := py_str base;
     html_head := html_head base;
     html_mid := html_mid base;
     html_tail := html_tail base;
     cache_dumps := cache_dumps base;
     cache_loads := json_loads |}.

(** An output directory that holds nothing but a cache file with the given
    text. *)
Definition with_cache_file (text : string) : gmap (list string) node :=
  {[ [] := Dir; [".autodoc_cache.json"] := File text ]}.

Definition accepts (spec : pyval) : validation := Valid.
Definition rejects (spec : pyval) : validation := Invalid "no operations".

End Demo.

(** ** A project whose cache file can be read back *)
Module Sample.

(** The cache after a first run over [Demo.project]. *)
Definition cache_after : pyval :=
  PDict [(PStr "src/main.py", PStr "md5:print('hello')");
         (PStr "src/api.py", PStr "md5:class APIView:
    def get(self): pass")].

(** As [Demo.env], with a [json] pair that reads [cache_after] back. *)
Definition env : Env :=
  let D := Demo.env Demo.project Demo.answers Demo.one_path Demo.accepts in
  {| project_name := project_name D;
     source := source D;
     read_text := read_text D;
     md5 := md5 D;
     docs_prompt := docs_prompt D;
     openapi_prompt := openapi_prompt D;
     post := post D;
     yaml_safe_load := yaml_safe_load D;
     validate := validate D;
     yaml_dump := yaml_dump D;
     json_dumps := json_dumps D;
     py_str := py_str D;
     html_head := html_head D;
     html_mid := html_mid D;
     html_tail := html_tail D;
     cache_dumps := fun _ => "{two entries}";
     cache_loads := fun text =>
       if String.eqb text "{two entries}" then Some cache_after else None |}.

(** A project with a pruned directory and a file that is no Python. *)
Definition mixed : list tree :=
  [TDir "src" [TFile "main.py"; TFile "notes.txt"; TDir "venv" [TFile "site.py"]];
   TDir ".git" [TFile "hook.py"]].

End Sample.

(** * Properties *)

(** ** The output directory *)

Section FsFacts.
Implicit Types (d : gmap (list string) node) (p q base rest : list string).

Lemma is_file_insert_dir d p q :
  d !! p = None -> is_file (<[p := Dir]> d) q = is_file d q.
Proof.
  intros Hp. unfold is_file.
  destruct (decide (p = q)) as [->|Hne].
  - rewrite lookup_insert_eq, Hp. reflexivity.
  - rewrite lookup_insert_ne by assumption. reflexivity.
Qed.

Lemma mkdir_one_ok d p last :
  is_file d p = false ->
  exists d', mkdir_one p last d = Ok d'
    /\ d' !! p = Some Dir
    /\ (forall q, q <> p -> d' !! q = d !! q)
    /\ (forall q, is_file d' q = is_file d q).
Proof.
  unfold is_file, mkdir_one. intros Hf.
  destruct (d !! p) as [[c|]|] eqn:Hp; try discriminate.
  - exists d. auto.
  - exists (<[p := Dir]> d). split; [reflexivity|].
    split; [apply lookup_insert_eq|].
    split.
    + intros q Hq. apply lookup_insert_ne. congruence.
    + intros q. apply is_file_insert_dir. exact Hp.
Qed.

Lemma mkdir_from_ok rest : forall base d,
  forallb (fun q => negb (is_file d q)) (prefixes_from base rest) = true ->
  exists d', mkdir_from base rest d = Ok d'
    /\ d' !! (base ++ rest)%list = Some Dir
    /\ (forall q, (length (base ++ rest)%list < length q)%nat -> d' !! q = d !! q).
Proof.
  induction rest as [|c rest IH]; intros base d Hfree; simpl in Hfree;
    apply andb_true_iff in Hfree as [Hbase Hrest];
    apply negb_true_iff in Hbase.
  - destruct (mkdir_one_ok d base true Hbase) as (d' & Hmk & Hat & Hother & _).
    exists d'. simpl. rewrite app_nil_r. split; [exact Hmk|]. split; [exact Hat|].
    intros q Hlen. apply Hother. intros ->. lia.
  - destruct (mkdir_one_ok d base false Hbase) as (d' & Hmk & Hat & Hother & Hfile).
    assert (Hrest' : forallb (fun q => negb (is_file d' q))
                       (prefixes_from (base ++ [c])%list rest) = true).
    { apply forallb_forall. intros q Hq. rewrite Hfile.
      exact (proj1 (forallb_forall _ _) Hrest q Hq). }
    destruct (IH (base ++ [c])%list d' Hrest') as (d2 & Hmk2 & Hat2 & Hother2).
    exists d2. simpl. rewrite Hmk. split; [exact Hmk2|].
    rewrite <- app_assoc in Hat2. simpl in Hat2. split; [exact Hat2|].
    intros q Hlen. rewrite Hother2.
    + apply Hother. intros ->. rewrite length_app in Hlen. simpl in Hlen. lia.
    + rewrite <- app_assoc. simpl. exact Hlen.
Qed.

Lemma write_file_ok d p c :
  d !! removelast p = Some Dir -> is_dir_at d p = false ->
  write_file p c d = Ok (<[p := File c]> d).
Proof.
  unfold write_file, is_dir_at. intros -> Hp.
  destruct (d !! p) as [[?|]|]; congruence.
Qed.

Lemma removelast_snoc (l : list string) (x : string) : removelast (l ++ [x])%list = l.
Proof. apply removelast_last. Qed.

End FsFacts.

(** ** Strings and paths *)

Lemma append_inv_head (s a b : string) : s ++ a = s ++ b -> a = b.
Proof. induction s as [|c s IH]; simpl; intros H; [exact H|]. injection H. exact IH. Qed.

Lemma out_path_ext_inj (f : src_path) (e1 e2 : string) :
  out_path f e1 = out_path f e2 -> e1 = e2.
Proof.
  unfold out_path. intros H. apply app_inv_head in H.
  injection H. apply append_inv_head.
Qed.

Lemma out_path_length (f : src_path) (e : string) :
  length (out_path f e) = S (length (rel_parent f)).
Proof. unfold out_path. rewrite length_app. simpl. lia. Qed.

Lemma out_path_parent (f : src_path) (e : string) :
  removelast (out_path f e) = rel_parent f.
Proof. apply removelast_snoc. Qed.

(** ** Stepping through [_process_file] *)

Section Stepping.
Context (E : Env).

Lemma write_file_ok_inv (p : list string) (c : string) (d d' : gmap (list string) node) :
  write_file p c d = Ok d' -> d' = <[p := File c]> d.
Proof.
  unfold write_file.
  destruct (d !! removelast p) as [[?|]|]; try discriminate.
  destruct (d !! p) as [[?|]|]; try discriminate; now intros [= <-].
Qed.

Lemma write_text_unfold (p : list string) (c : string) (st : state) :
  write_text p c st
  = match write_file p c (docs st) with
    | Ok d => (Ok tt, mkState (cache st) d (log st))
    | Raise e => (Raise e, st)
    end.
Proof. unfold write_text. step. destruct (write_file p c (docs st)); reflexivity. Qed.

Lemma existsb_paths_lookup (d : list (pyval * pyval)) :
  existsb (fun kv => eq_str "paths" (fst kv)) d = has_paths_key (PDict d).
Proof.
  simpl. induction d as [|[k v] d IH]; simpl; [reflexivity|].
  destruct (eq_str "paths" k); simpl; [reflexivity|exact IH].
Qed.

Lemma generate_openapi_fragment_eq (code : string) (st : state) :
  generate_openapi_fragment E code st
  = (Ok (fragment_of E code),
     mkState (cache st) (docs st) (log st ++ parse_log E code)).
Proof.
  unfold generate_openapi_fragment, fragment_of, parse_log.
  destruct (yaml_safe_load E _); step.
  - rewrite app_nil_r. destruct st; reflexivity.
  - reflexivity.
Qed.

Lemma validate_spec_eq (spec : pyval) (st : state) :
  validate_spec E spec st
  = (Ok tt, mkState (cache st) (docs st) (log st ++ validation_log (validate E spec))).
Proof.
  unfold validate_spec, validation_log.
  destruct (validate E spec); step; try reflexivity.
  rewrite app_nil_r. destruct st; reflexivity.
Qed.



(** A fragment without a ["paths"] key (or that is no mapping) leaves the
    disk and the cache as they are, whether it is passed over or raises. *)
Lemma process_fragment_skip (f : src_path) (fragment : pyval) (st : state) :
  has_paths_key fragment = false ->
  snd (process_fragment E f fragment st) = st.
Proof.
  intros Hk. unfold process_fragment.
  destruct fragment as [| b | z | m e | s | l | d | iso | data | items].
  7: { unfold py_in. rewrite existsb_paths_lookup, Hk.
       destruct (truthy (PDict d)); reflexivity. }
  all: step; try reflexivity.
  all: repeat (match goal with |- context [if ?c then _ else _] => destruct c end;
               simpl; try reflexivity).
Qed.

(** A mapping with a ["paths"] key is assembled, validated and written to
    the [.yaml]; the page follows when [json.dumps] takes the
    specification. *)
Lemma process_fragment_yaml (f : src_path) (d : list (pyval * pyval)) (st : state) :
  has_paths_key (PDict d) = true ->
  docs st !! rel_parent f = Some Dir ->
  is_dir_at (docs st) (out_path f ".yaml") = false ->
  let spec := assemble (project_name E) (fname f) d in
  process_fragment E f (PDict d) st
  = (html_content <- lift (create_swagger_html E spec) ;;
     write_text (out_path f ".html") html_content ;;;
     print (LogSwagger (out_path f ".html")))
      (mkState (cache st)
         (<[out_path f ".yaml" := File (yaml_dump E spec)]> (docs st))
         ((log st ++ validation_log (validate E spec))
            ++ [LogSpec (out_path f ".yaml")])).
Proof.
  intros Hk Hparent Hyaml spec.
  unfold process_fragment.
  assert (Htruthy : truthy (PDict d) = true).
  { destruct d; [discriminate Hk|reflexivity]. }
  rewrite Htruthy. unfold py_in. rewrite existsb_paths_lookup, Hk.
  unfold bind at 1. unfold lift at 1. cbv iota beta.
  unfold bind at 1. unfold lift at 1, as_dict. cbv iota beta.
  unfold bind at 1. rewrite validate_spec_eq.
  unfold bind at 1. rewrite write_text_unfold. simpl docs.
  rewrite write_file_ok;
    [|rewrite out_path_parent; exact Hparent|exact Hyaml].
  unfold bind at 1. unfold print at 1. reflexivity.
Qed.



End Stepping.

Section CacheFacts.

Lemma eq_str_true (s : string) (v : pyval) : eq_str s v = true -> v = PStr s.
Proof.
  destruct v; simpl; try discriminate. intros H. apply String.eqb_eq in H. now subst.
Qed.

Lemma eq_str_refl (s : string) : eq_str s (PStr s) = true.
Proof. apply String.eqb_refl. Qed.

Lemma existsb_key_lookup (key : string) (d : list (pyval * pyval)) :
  existsb (fun kv => eq_str key (fst kv)) d
  = match dict_lookup key d with Some _ => true | None => false end.
Proof.
  induction d as [|[k v] d IH]; simpl; [reflexivity|].
  destruct (eq_str key k); simpl; [reflexivity|exact IH].
Qed.

Lemma dict_lookup_set_eq (key : string) (v : pyval) (d : list (pyval * pyval)) :
  dict_lookup key (dict_set key v d) = Some v.
Proof.
  induction d as [|[k x] d IH]; simpl.
  - now rewrite String.eqb_refl.
  - destruct (eq_str key k) eqn:Hk; simpl; rewrite Hk; [reflexivity|exact IH].
Qed.

Lemma dict_lookup_set_ne (key k' : string) (v : pyval) (d : list (pyval * pyval)) :
  k' <> key -> dict_lookup k' (dict_set key v d) = dict_lookup k' d.
Proof.
  intros Hne. induction d as [|[k x] d IH]; simpl.
  - destruct (String.eqb key k') eqn:Heq; [|reflexivity].
    apply String.eqb_eq in Heq. congruence.
  - destruct (eq_str key k) eqn:Hk; simpl.
    + destruct (eq_str k' k) eqn:Hk'; [|reflexivity].
      apply eq_str_true in Hk, Hk'. congruence.
    + destruct (eq_str k' k); [reflexivity|exact IH].
Qed.

Lemma cache_hit_dict (d : list (pyval * pyval)) (key h : string) :
  cache_hit (PDict d) key h
  = Ok (match dict_lookup key d with Some v => eq_str h v | None => false end).
Proof.
  unfold cache_hit, py_in, subscript. rewrite existsb_key_lookup.
  destruct (dict_lookup key d); reflexivity.
Qed.

(** Only a mapping that holds the fingerprint makes the hash check pass. *)
Lemma cache_hit_true_inv (c : pyval) (key h : string) :
  cache_hit c key h = Ok true -> cache_get c key = Some (PStr h).
Proof.
  destruct c as [| | | | s | l | d | | | l]; unfold cache_hit; simpl;
    try discriminate.
  - destruct (PyStr.contains key s); discriminate.
  - destruct (existsb (eq_str key) l); discriminate.
  - rewrite existsb_key_lookup. destruct (dict_lookup key d) as [v|]; [|discriminate].
    intros [= Hv]. apply eq_str_true in Hv. now subst.
  - destruct (existsb (eq_str key) l); discriminate.
Qed.

Lemma cache_hit_of_get (c : pyval) (key h : string) :
  cache_get c key = Some (PStr h) -> cache_hit c key h = Ok true.
Proof.
  destruct c; simpl; try discriminate. intros Hget.
  rewrite cache_hit_dict, Hget. now rewrite eq_str_refl.
Qed.

Lemma misses_spec (c : pyval) (key h : string) :
  misses c key h = true
  <-> exists d, c = PDict d /\ dict_lookup key d <> Some (PStr h).
Proof.
  unfold misses. split.
  - destruct c; try discriminate. intros Hm. eexists. split; [reflexivity|].
    intros Heq. rewrite Heq, eq_str_refl in Hm. discriminate Hm.
  - intros (d & -> & Hne). destruct (dict_lookup key d) as [v|]; [|reflexivity].
    destruct (eq_str h v) eqn:Hv; [|reflexivity].
    apply eq_str_true in Hv. congruence.
Qed.

Lemma misses_cache_hit (c : pyval) (key h : string) :
  misses c key h = true -> cache_hit c key h = Ok false.
Proof.
  unfold misses. destruct c; try discriminate. rewrite cache_hit_dict.
  destruct (dict_lookup key _) as [v|]; [|reflexivity].
  now intros ->%negb_true_iff.
Qed.

Lemma misses_stored (c : pyval) (key h : string) :
  misses c key h = true -> setitem key (PStr h) c = Ok (stored c key h).
Proof. unfold misses, stored. destruct c; try discriminate. reflexivity. Qed.

Lemma cache_get_stored (c : pyval) (key h : string) (c' : pyval) :
  setitem key (PStr h) c = Ok c' ->
  cache_get c' key = Some (PStr h)
  /\ forall k, k <> key -> cache_get c' k = cache_get c k.
Proof.
  destruct c; simpl; try discriminate. intros [= <-]. simpl. split.
  - apply dict_lookup_set_eq.
  - intros k Hk. now apply dict_lookup_set_ne.
Qed.

Lemma setitem_dict (c : pyval) (key : string) (x : pyval) :
  (exists d, c = PDict d) -> exists c', setitem key x c = Ok c'.
Proof. intros [d ->]. simpl. eauto. Qed.

Lemma cache_get_dict (c : pyval) (k : string) :
  is_Some (cache_get c k) -> exists d, c = PDict d.
Proof. destruct c; simpl; intros [x Hx]; try discriminate. eauto. Qed.

Lemma cache_set_unfold (key h : string) (st : state) :
  cache_set key h st
  = match setitem key (PStr h) (cache st) with
    | Ok c' => (Ok tt, mkState c' (docs st) (log st))
    | Raise e => (Raise e, st)
    end.
Proof. unfold cache_set. step. destruct (setitem key (PStr h) (cache st)); reflexivity. Qed.

End CacheFacts.

Section ProcessChanged.
Context (E : Env).

Lemma process_changed_unfold (f : src_path) (code h : string) (st : state) :
  process_changed E f code h st
  = match setitem (rel_str f) (PStr h) (cache st) with
    | Raise e => (Raise e, st)
    | Ok c' =>
        match mkdir_from [] (rel_parent f) (docs st) with
        | Raise e => (Raise e, mkState c' (docs st) (log st))
        | Ok d1 =>
            match write_file (out_path f ".md") (generate_docs E code "python") d1 with
            | Raise e => (Raise e, mkState c' d1 (log st))
            | Ok d2 =>
                after_prose E f code
                  (mkState c' d2 (log st ++ [LogSaved (out_path f ".md")]))
            end
        end
    end.
Proof.
  unfold process_changed. fold (after_prose E f code).
  unfold bind at 1. rewrite cache_set_unfold.
  destruct (setitem _ _ (cache st)) as [c'|e]; [|reflexivity].
  unfold bind at 1. unfold mkdir_parents.
  unfold bind at 1. unfold get_docs at 1. cbv iota beta.
  unfold bind at 1. unfold lift at 1. simpl docs.
  destruct (mkdir_from [] (rel_parent f) (docs st)) as [d1|e]; [|reflexivity].
  unfold put_docs at 1. cbv iota beta.
  unfold bind at 1. rewrite write_text_unfold. simpl docs.
  destruct (write_file _ _ d1) as [d2|e]; [|reflexivity].
  reflexivity.
Qed.

(** With no regular file in the way of the directories and no directory in
    the way of the prose document, the cache entry is set, the directories
    are made and the prose document is written. *)
Lemma process_changed_prose (f : src_path) (code h : string) (st : state)
    (c' : pyval) :
  setitem (rel_str f) (PStr h) (cache st) = Ok c' ->
  dirs_free (docs st) (rel_parent f) = true ->
  is_dir_at (docs st) (out_path f ".md") = false ->
  exists d1,
    mkdir_from [] (rel_parent f) (docs st) = Ok d1
    /\ d1 !! rel_parent f = Some Dir
    /\ (forall q, (length (rel_parent f) < length q)%nat -> d1 !! q = docs st !! q)
    /\ process_changed E f code h st
       = after_prose E f code
           (mkState c'
              (<[out_path f ".md" := File (generate_docs E code "python")]> d1)
              (log st ++ [LogSaved (out_path f ".md")])).
Proof.
  intros Hset Hfree Hmd.
  destruct (mkdir_from_ok (rel_parent f) [] (docs st) Hfree) as (d1 & Hmk & Hat & Hother).
  simpl in Hat, Hother.
  exists d1. repeat split; try assumption.
  rewrite process_changed_unfold, Hset, Hmk.
  rewrite write_file_ok.
  - reflexivity.
  - rewrite out_path_parent. exact Hat.
  - unfold is_dir_at. rewrite Hother; [exact Hmd|].
    rewrite out_path_length. lia.
Qed.

Lemma after_prose_plain (f : src_path) (code : string) (st : state) :
  api_like code = false -> after_prose E f code st = (Ok tt, st).
Proof. unfold after_prose. intros ->. reflexivity. Qed.

Lemma after_prose_api (f : src_path) (code : string) (st : state) :
  api_like code = true ->
  after_prose E f code st
  = process_fragment E f (fragment_of E code)
      (mkState (cache st) (docs st) ((log st ++ [LogDetecting]) ++ parse_log E code)).
Proof.
  unfold after_prose. intros ->.
  unfold bind at 1. unfold print at 1.
  unfold bind at 1. rewrite generate_openapi_fragment_eq. reflexivity.
Qed.

(** Whatever the fragment step does, it touches neither the cache nor any
    path but the unit's own [.yaml] and [.html]. *)
Lemma process_fragment_frame (f : src_path) (fragment : pyval) (st st' : state)
    (r : result unit) :
  process_fragment E f fragment st = (r, st') ->
  cache st' = cache st
  /\ forall q, q <> out_path f ".yaml" -> q <> out_path f ".html" ->
       docs st' !! q = docs st !! q.
Proof.
  intros Hrun.
  destruct (has_paths_key fragment) eqn:Hk.
  2: { pose proof (process_fragment_skip E f fragment st Hk) as Hs.
       rewrite Hrun in Hs. simpl in Hs. subst st'. auto. }
  destruct fragment as [| | | | | | d | | |]; try discriminate Hk.
  unfold process_fragment in Hrun.
  assert (Htruthy : truthy (PDict d) = true).
  { destruct d; [discriminate Hk|reflexivity]. }
  rewrite Htruthy in Hrun. unfold py_in in Hrun.
  rewrite existsb_paths_lookup, Hk in Hrun.
  unfold bind at 1 in Hrun. unfold lift at 1 in Hrun. cbv iota beta in Hrun.
  unfold bind at 1 in Hrun. unfold lift at 1, as_dict in Hrun. cbv iota beta in Hrun.
  unfold bind at 1 in Hrun. rewrite validate_spec_eq in Hrun.
  unfold bind at 1 in Hrun. rewrite write_text_unfold in Hrun. simpl docs in Hrun.
  destruct (write_file (out_path f ".yaml") _ (docs st)) as [d1|e] eqn:Hw1.
  2: { injection Hrun as <- <-. split; [reflexivity|intros; reflexivity]. }
  apply write_file_ok_inv in Hw1. subst d1.
  unfold bind at 1 in Hrun. unfold print at 1 in Hrun.
  unfold bind at 1 in Hrun. unfold lift at 1 in Hrun.
  destruct (create_swagger_html E _) as [html|e].
  2: { injection Hrun as <- <-. simpl. split; [reflexivity|].
       intros q Hq1 Hq2. now rewrite lookup_insert_ne by congruence. }
  unfold bind at 1 in Hrun. rewrite write_text_unfold in Hrun. simpl docs in Hrun.
  destruct (write_file (out_path f ".html") _ _) as [d2|e] eqn:Hw2.
  - apply write_file_ok_inv in Hw2. subst d2.
    injection Hrun as <- <-. simpl. split; [reflexivity|].
    intros q Hq1 Hq2. now rewrite !lookup_insert_ne by congruence.
  - injection Hrun as <- <-. simpl. split; [reflexivity|].
    intros q Hq1 Hq2. now rewrite lookup_insert_ne by congruence.
Qed.

End ProcessChanged.

Section ProcessFile.
Context (E : Env).

Lemma process_file_unfold (f : src_path) (code : string) (st : state) :
  read_text E f = ReadOk code ->
  process_file E f st
  = match cache_hit (cache st) (rel_str f) (md5 E code) with
    | Raise e => (Raise e, entered f st)
    | Ok true =>
        (Ok tt, mkState (cache st) (docs st)
                  ((log st ++ [LogProcessing (rel_str f)]) ++ [LogSkipping]))
    | Ok false => process_changed E f code (md5 E code) (entered f st)
    end.
Proof.
  intros Hread. unfold process_file. rewrite Hread.
  unfold bind at 1. unfold print at 1. unfold bind at 1. unfold get_cache at 1.
  cbv iota beta. unfold bind at 1. unfold lift at 1. simpl cache.
  destruct (cache_hit (cache st) (rel_str f) (md5 E code)) as [[|]|e]; reflexivity.
Qed.

Lemma process_file_hit (f : src_path) (code : string) (st : state) :
  read_text E f = ReadOk code ->
  cache_hit (cache st) (rel_str f) (md5 E code) = Ok true ->
  process_file E f st
  = (Ok tt, mkState (cache st) (docs st)
              ((log st ++ [LogProcessing (rel_str f)]) ++ [LogSkipping])).
Proof. intros Hread Hhit. now rewrite (process_file_unfold f code st Hread), Hhit. Qed.

Lemma process_file_miss (f : src_path) (code : string) (st : state) :
  read_text E f = ReadOk code ->
  cache_hit (cache st) (rel_str f) (md5 E code) = Ok false ->
  process_file E f st = process_changed E f code (md5 E code) (entered f st).
Proof. intros Hread Hmiss. now rewrite (process_file_unfold f code st Hread), Hmiss. Qed.

(** A changed, API-like unit whose fragment is a mapping with a ["paths"]
    key, up to the [.yaml], on an output tree that accepts the files. *)
Lemma process_changed_api_yaml (f : src_path) (code h : string)
    (d : list (pyval * pyval)) (st : state) (c' : pyval) :
  setitem (rel_str f) (PStr h) (cache st) = Ok c' ->
  dirs_free (docs st) (rel_parent f) = true ->
  is_dir_at (docs st) (out_path f ".md") = false ->
  is_dir_at (docs st) (out_path f ".yaml") = false ->
  api_like code = true ->
  fragment_of E code = PDict d ->
  has_paths_key (PDict d) = true ->
  let spec := assemble (project_name E) (fname f) d in
  exists d1,
    mkdir_from [] (rel_parent f) (docs st) = Ok d1
    /\ d1 !! rel_parent f = Some Dir
    /\ (forall q, (length (rel_parent f) < length q)%nat -> d1 !! q = docs st !! q)
    /\ process_changed E f code h st
       = process_fragment E f (PDict d)
           (mkState c'
              (<[out_path f ".md" := File (generate_docs E code "python")]> d1)
              (((log st ++ [LogSaved (out_path f ".md")]) ++ [LogDetecting])
                 ++ parse_log E code)).
Proof.
  intros Hset Hfree Hmd Hyaml Hapi Hfrag Hkey spec.
  destruct (process_changed_prose E f code h st c' Hset Hfree Hmd)
    as (d1 & Hmk & Hat & Hother & Hrun).
  exists d1. split; [exact Hmk|]. split; [exact Hat|]. split; [exact Hother|].
  now rewrite Hrun, (after_prose_api E f code _ Hapi), Hfrag.
Qed.



End ProcessFile.

(** ** The repository's tests, replayed on the model *)

(** [test_llm_client_mock]: the fenced answer comes back as ["# Doc"]. *)
Example test_llm_client_mock :
  generate_docs (Demo.env Demo.project Demo.answers Demo.one_path Demo.accepts)
    "code" "python" = "# Doc".
Proof. reflexivity. Qed.

(** [test_scan_files], with the [.git] directory and the text file of the
    fixture. *)
Example test_scan_files :
  scan_files (Demo.env
                [TDir "src" [TFile "main.py"; TFile "utils.py"; TFile "ignored.txt"];
                 TDir ".git" [TFile "config"; TFile "hook.py"]]
                Demo.answers Demo.one_path Demo.accepts)
  = [mkPath ["src"] "main.py"; mkPath ["src"] "utils.py"].
Proof. reflexivity. Qed.

(** [test_process_file]: [docs/src/main.md] holds the mocked document. *)
Example test_process_file :
  let E := Demo.env Demo.project (fun _ => Content "# Mocked Doc")
             Demo.one_path Demo.accepts in
  let r := process_file E Demo.main_py Demo.fresh in
  fst r = Ok tt
  /\ docs (snd r) !! ["src"; "main.md"] = Some (File "# Mocked Doc").
Proof. vm_compute. split; reflexivity. Qed.

(** [test_generate_index]: the entry of [src/main.py] links to
    [src/main.md]. *)
Example test_generate_index :
  index_lines {[ [] := Dir ]} [Demo.main_py]
  = (index_header ++ ["- [src/main.py](src/main.md)"])%list.
Proof. vm_compute. reflexivity. Qed.

(** [test_openapi_generation] and [test_openapi_validation_failure]: a run
    over the project writes [api.yaml] and [api.html] next to [api.md],
    also when the validator rejects the specification. *)
Example test_openapi_generation :
  let E := Demo.env Demo.project Demo.answers Demo.one_path Demo.rejects in
  let r := run E Demo.fresh in
  fst r = Ok tt
  /\ exists_ ["src"; "api.md"] (docs (snd r)) = true
  /\ docs (snd r) !! ["src"; "api.yaml"]
     = Some (File (yaml_dump E (assemble "Demo" "api.py" Demo.test_fragment)))
  /\ exists_ ["src"; "api.html"] (docs (snd r)) = true
  /\ exists_ ["src"; "main.yaml"] (docs (snd r)) = false
  /\ docs (snd r) !! ["README.md"]
     = Some (File "# Project Documentation

Generated by Smriti Auto-Doc

## Modules

- [src/api.py](src/api.md) ([OpenAPI](api.yaml) | [Swagger UI](api.html))
- [src/main.py](src/main.md)").
Proof. vm_compute. repeat split. Qed.

(** [sorted] follows the order of [Path] objects, component by component:
    the module [pkg/mod.py] comes before [pkg.py], although ["pkg.py"] is
    the smaller string. *)
Example sorted_by_components :
  sorted [mkPath [] "pkg.py"; mkPath ["pkg"] "mod.py"]
  = [mkPath ["pkg"] "mod.py"; mkPath [] "pkg.py"]
  /\ String.compare "pkg.py" "pkg/mod.py" = Lt.
Proof. vm_compute. split; reflexivity. Qed.

(** ** Strings *)

Section StringFacts.

Lemma prefix_nil (s : string) : String.prefix "" s = true.
Proof. destruct s; reflexivity. Qed.

Lemma prefix_app_inv (a b s : string) :
  String.prefix (a ++ b) s = true -> String.prefix a s = true.
Proof.
  revert s. induction a as [|c a IH]; intros s H; [apply prefix_nil|].
  destruct s as [|c' s]; simpl in *; [discriminate H|].
  destruct (ascii_dec c c'); [apply IH; exact H|discriminate H].
Qed.

Lemma length_app_str (a b : string) :
  String.length (a ++ b) = (String.length a + String.length b)%nat.
Proof. induction a as [|c a IH]; simpl; [reflexivity|]. now rewrite IH. Qed.

Lemma append_assoc_str (a b c : string) : (a ++ b) ++ c = a ++ (b ++ c).
Proof.
  induction a as [|x a IH]; [reflexivity|].
  change (String x ((a ++ b) ++ c) = String x (a ++ (b ++ c))).
  now rewrite IH.
Qed.

Lemma drop_app (a b : string) : PyStr.drop (String.length a) (a ++ b) = b.
Proof. induction a as [|c a IH]; simpl; [reflexivity|exact IH]. Qed.

Lemma take_app (a b : string) : PyStr.take (String.length a) (a ++ b) = a.
Proof.
  induction a as [|c a IH]; simpl; [reflexivity|now rewrite IH].
Qed.

Lemma endswith_app (a p : string) : PyStr.endswith p (a ++ p) = true.
Proof.
  unfold PyStr.endswith. rewrite length_app_str.
  replace (String.length a + String.length p - String.length p)%nat
    with (String.length a) by lia.
  rewrite drop_app, String.eqb_refl, andb_true_r.
  apply Nat.leb_le. lia.
Qed.

Lemma drop_last_app (a p : string) :
  PyStr.drop_last (String.length p) (a ++ p) = a.
Proof.
  unfold PyStr.drop_last. rewrite length_app_str.
  replace (String.length a + String.length p - String.length p)%nat
    with (String.length a) by lia.
  apply take_app.
Qed.

Lemma drop_last_fence (rest : string) : PyStr.drop_last 3 (rest ++ "```") = rest.
Proof. exact (drop_last_app rest "```"). Qed.

(** A text that starts with a longer fence starts with [```]. *)
Lemma no_fence_no_tagged_fence (tag s : string) :
  PyStr.startswith "```" s = false -> PyStr.startswith ("```" ++ tag) s = false.
Proof.
  unfold PyStr.startswith. intros Hno.
  destruct (String.prefix ("```" ++ tag) s) eqn:Htag; [|reflexivity].
  apply prefix_app_inv in Htag. congruence.
Qed.

End StringFacts.

(** ** The index and the monad *)

Section IndexFacts.

Lemma parts_compare_antisym (a : list string) : forall b,
  parts_compare b a = CompOpp (parts_compare a b).
Proof.
  induction a as [|x a IH]; intros [|y b]; simpl; try reflexivity.
  rewrite (String.compare_antisym x y).
  destruct (String.compare y x); simpl; auto.
Qed.

#[global] Instance path_le_total : Total path_le.
Proof.
  intros f g. unfold path_le.
  rewrite (parts_compare_antisym (parts f) (parts g)).
  destruct (parts_compare (parts f) (parts g)); simpl; [left|left|right]; discriminate.
Qed.

Lemma sorted_Sorted (files : list src_path) : Sorted path_le (sorted files).
Proof. apply Sorted_merge_sort. apply _. Qed.

Lemma sorted_Permutation (files : list src_path) : Permutation (sorted files) files.
Proof. apply merge_sort_Permutation. Qed.

Lemma index_links_openapi (d : gmap (list string) node) (f : src_path) :
  In ("[OpenAPI](" ++ openapi_target f ++ ")") (index_links d f)
  <-> exists_ (out_path f ".yaml") d = true.
Proof.
  unfold index_links.
  destruct (exists_ (out_path f ".yaml") d), (exists_ (out_path f ".html") d);
    simpl; split; intros H; auto; try discriminate H;
    destruct H as [H|H]; try discriminate H; destruct H.
Qed.

Lemma index_links_swagger (d : gmap (list string) node) (f : src_path) :
  In ("[Swagger UI](" ++ swagger_target f ++ ")") (index_links d f)
  <-> exists_ (out_path f ".html") d = true.
Proof.
  unfold index_links.
  destruct (exists_ (out_path f ".yaml") d), (exists_ (out_path f ".html") d);
    simpl; split; intros H; auto; try discriminate H;
    repeat (destruct H as [H|H]; try discriminate H); try destruct H.
Qed.

Lemma bind_ok_inv {A B} (m : M A) (k : A -> M B) (st st' : state) (b : B) :
  bind m k st = (Ok b, st') ->
  exists a st1, m st = (Ok a, st1) /\ k a st1 = (Ok b, st').
Proof.
  unfold bind. destruct (m st) as [[a|e] st1]; intros H; [eauto|discriminate H].
Qed.

Lemma write_text_ok_inv (p : list string) (c : string) (st st' : state) :
  write_text p c st = (Ok tt, st') ->
  st' = mkState (cache st) (<[p := File c]> (docs st)) (log st).
Proof.
  unfold write_text. step. unfold write_file.
  destruct (docs st !! removelast p) as [[?|]|]; simpl; try discriminate.
  destruct (docs st !! p) as [[?|]|]; simpl; try discriminate; now intros [= <-].
Qed.

End IndexFacts.

(** ** Link targets *)

Section LinkFacts.

Lemma join_snoc (sep : string) (l : list string) (x : string) :
  l <> [] -> PyStr.join sep (l ++ [x]) = PyStr.join sep l ++ sep ++ x.
Proof.
  induction l as [|a l IH]; intros Hne; [congruence|].
  destruct l as [|b l]; [reflexivity|].
  change (PyStr.join sep ((a :: b :: l) ++ [x]))
    with (a ++ sep ++ PyStr.join sep ((b :: l) ++ [x])).
  rewrite IH by discriminate.
  change (PyStr.join sep (a :: b :: l)) with (a ++ sep ++ PyStr.join sep (b :: l)).
  rewrite !append_assoc_str. reflexivity.
Qed.

Lemma startswith_slash (c : ascii) (t : string) :
  PyStr.startswith "/" (String c t) = if ascii_dec "/" c then true else false.
Proof.
  unfold PyStr.startswith.
  change (String.prefix "/" (String c t))
    with (match ascii_dec "/" c with
          | left _ => String.prefix "" t
          | right _ => false
          end).
  destruct (ascii_dec "/" c); [apply prefix_nil|reflexivity].
Qed.

Lemma contains_slash_app (a b : string) :
  PyStr.contains "/" (a ++ b) = PyStr.contains "/" a || PyStr.contains "/" b.
Proof.
  induction a as [|c a IH]; [reflexivity|].
  change (PyStr.contains "/" (String c a ++ b))
    with (PyStr.startswith "/" (String c (a ++ b)) || PyStr.contains "/" (a ++ b)).
  change (PyStr.contains "/" (String c a))
    with (PyStr.startswith "/" (String c a) || PyStr.contains "/" a).
  rewrite !startswith_slash, IH. apply orb_assoc.
Qed.

Lemma take_drop (n : nat) (s : string) : PyStr.take n s ++ PyStr.drop n s = s.
Proof.
  revert s. induction n as [|n IH]; intros [|c s]; try reflexivity.
  change (String c (PyStr.take n s ++ PyStr.drop n s) = String c s).
  now rewrite IH.
Qed.

Lemma stem_no_slash (name : string) :
  PyStr.contains "/" name = false -> PyStr.contains "/" (stem name) = false.
Proof.
  intros Hname. unfold stem.
  destruct (PyStr.rfind_dot name) as [i|]; [|exact Hname].
  destruct (_ && _); [|exact Hname].
  rewrite <- (take_drop i name), contains_slash_app in Hname.
  apply orb_false_iff in Hname. apply Hname.
Qed.

End LinkFacts.

(** ** What processing one unit can touch *)

Section Frames.
Context (E : Env).

Lemma adds_dirs_refl (d : gmap (list string) node) : adds_dirs d d.
Proof. intros q. now left. Qed.

Lemma adds_dirs_trans (d1 d2 d3 : gmap (list string) node) :
  adds_dirs d1 d2 -> adds_dirs d2 d3 -> adds_dirs d1 d3.
Proof.
  intros H12 H23 q. destruct (H12 q) as [H|[Hn Hd]], (H23 q) as [H'|[Hn' Hd']].
  - left. congruence.
  - right. split; congruence.
  - right. split; congruence.
  - congruence.
Qed.

Lemma mkdir_one_adds (p : list string) (last : bool) (d d' : gmap (list string) node) :
  mkdir_one p last d = Ok d' -> adds_dirs d d'.
Proof.
  unfold mkdir_one. destruct (d !! p) as [[c|]|] eqn:Hp; intros [= <-].
  - apply adds_dirs_refl.
  - intros q. destruct (decide (p = q)) as [<-|Hne].
    + right. split; [exact Hp|apply lookup_insert_eq].
    + left. now apply lookup_insert_ne.
Qed.

Lemma mkdir_from_adds (rest : list string) : forall base d d',
  mkdir_from base rest d = Ok d' -> adds_dirs d d'.
Proof.
  induction rest as [|c rest IH]; intros base d d'; simpl.
  - apply mkdir_one_adds.
  - destruct (mkdir_one base false d) as [d1|e] eqn:Hone; [|discriminate].
    intros Hrest. eapply adds_dirs_trans.
    + eapply mkdir_one_adds, Hone.
    + eapply IH, Hrest.
Qed.

(** Whatever happens after the hash check: when the cache takes the
    assignment of line 224 it ends up with the unit's entry set and nothing
    else changed, and otherwise the call ends there; on disk, directories
    may have been added and the unit's three artifacts written. *)
Lemma process_changed_frame (f : src_path) (code h : string) (st st' : state)
    (r : result unit) :
  process_changed E f code h st = (r, st') ->
  match setitem (rel_str f) (PStr h) (cache st) with
  | Ok c' => cache st' = c'
  | Raise e => st' = st /\ r = Raise e
  end
  /\ exists d1, adds_dirs (docs st) d1
       /\ forall q, ~ In q (artifacts f) -> docs st' !! q = d1 !! q.
Proof.
  rewrite process_changed_unfold.
  destruct (setitem (rel_str f) (PStr h) (cache st)) as [c'|e0].
  2: { intros [= <- <-]. split; [auto|].
       exists (docs st). split; [apply adds_dirs_refl|reflexivity]. }
  destruct (mkdir_from [] (rel_parent f) (docs st)) as [d1|e] eqn:Hmk; simpl.
  2: { intros [= <- <-]. simpl. split; [reflexivity|].
       exists (docs st). split; [apply adds_dirs_refl|reflexivity]. }
  apply mkdir_from_adds in Hmk.
  destruct (write_file (out_path f ".md") _ d1) as [d2|e] eqn:Hw; simpl.
  2: { intros [= <- <-]. simpl. split; [reflexivity|].
       exists d1. split; [exact Hmk|reflexivity]. }
  apply write_file_ok_inv in Hw. subst d2.
  intros Hrest.
  assert (Hmd : forall q, ~ In q (artifacts f) ->
            (<[out_path f ".md" := File (generate_docs E code "python")]> d1) !! q
            = d1 !! q).
  { intros q Hq. apply lookup_insert_ne. intros <-. apply Hq. now left. }
  destruct (api_like code) eqn:Hapi.
  - rewrite (after_prose_api E f code _ Hapi) in Hrest.
    apply process_fragment_frame in Hrest as [Hc Hd]. simpl in Hc, Hd.
    split; [exact Hc|]. exists d1. split; [exact Hmk|].
    intros q Hq. rewrite Hd.
    + now apply Hmd.
    + intros ->. apply Hq. simpl. auto.
    + intros ->. apply Hq. simpl. auto.
  - rewrite (after_prose_plain E f code _ Hapi) in Hrest.
    injection Hrest as <- <-. simpl. split; [reflexivity|].
    exists d1. split; [exact Hmk|]. exact Hmd.
Qed.

Lemma process_file_frame (f : src_path) (st st' : state) (r : result unit) :
  process_file E f st = (r, st') ->
  (forall k, k <> rel_str f -> cache_get (cache st') k = cache_get (cache st) k)
  /\ exists d1, adds_dirs (docs st) d1
       /\ forall q, ~ In q (artifacts f) -> docs st' !! q = d1 !! q.
Proof.
  destruct (read_text E f) as [code|msg] eqn:Hread.
  - rewrite (process_file_unfold E f code st Hread).
    destruct (cache_hit _ _ _) as [[|]|e].
    + intros [= <- <-]. simpl. split; [reflexivity|].
      exists (docs st). split; [apply adds_dirs_refl|reflexivity].
    + intros Hrun. apply process_changed_frame in Hrun as [Hc Hd].
      simpl in Hc, Hd. split; [|exact Hd].
      intros k Hk.
      destruct (setitem (rel_str f) (PStr (md5 E code)) (cache st)) as [c'|e] eqn:Hset.
      * subst c'. now apply (cache_get_stored _ _ _ _ Hset).
      * destruct Hc as [-> _]. reflexivity.
    + intros [= <- <-]. simpl. split; [reflexivity|].
      exists (docs st). split; [apply adds_dirs_refl|reflexivity].
  - unfold process_file. rewrite Hread.
    unfold bind at 1. unfold print at 1.
    intros [= <- <-]. simpl. split; [reflexivity|].
    exists (docs st). split; [apply adds_dirs_refl|reflexivity].
Qed.

(** A cache that is a mapping stays one, and a cache that is none stays as
    it is. *)
Lemma process_file_cache_shape (f : src_path) (st st' : state) (r : result unit) :
  process_file E f st = (r, st') ->
  ((exists d, cache st = PDict d) -> exists d', cache st' = PDict d')
  /\ ((forall d, cache st <> PDict d) -> cache st' = cache st).
Proof.
  destruct (read_text E f) as [code|msg] eqn:Hread.
  - rewrite (process_file_unfold E f code st Hread).
    destruct (cache_hit _ _ _) as [[|]|e].
    + intros [= <- <-]. simpl. auto.
    + intros Hrun. apply process_changed_frame in Hrun as [Hc _].
      simpl in Hc. split.
      * intros [d Hd]. rewrite Hd in Hc. simpl in Hc. eauto.
      * intros Hno. destruct (cache st) as [| | | | | | d | | |] eqn:Hcache;
          simpl in Hc; [| | | | | |now destruct (Hno d)| | |];
          destruct Hc as [-> _]; simpl; congruence.
    + intros [= <- <-]. simpl. auto.
  - unfold process_file. rewrite Hread.
    unfold bind at 1. unfold print at 1.
    intros [= <- <-]. simpl. auto.
Qed.

(** After a readable unit has gone through [_process_file] with a cache
    that is a mapping, however that ended, the cache maps it to the
    fingerprint of its content. *)
Lemma process_file_cached (f : src_path) (code : string) (st st' : state)
    (r : result unit) :
  read_text E f = ReadOk code ->
  (exists d, cache st = PDict d) ->
  process_file E f st = (r, st') ->
  cache_get (cache st') (rel_str f) = Some (PStr (md5 E code)).
Proof.
  intros Hread [d Hd]. rewrite (process_file_unfold E f code st Hread).
  destruct (cache_hit _ _ _) as [[|]|e] eqn:Hhit.
  - intros [= <- <-]. simpl. now apply cache_hit_true_inv.
  - intros Hrun. apply process_changed_frame in Hrun as [Hc _].
    simpl in Hc. rewrite Hd in Hc. simpl in Hc. rewrite Hc. simpl.
    apply dict_lookup_set_eq.
  - rewrite Hd, cache_hit_dict in Hhit. discriminate Hhit.
Qed.

(** The same after a call that ended normally, whatever the cache was. *)
Lemma process_file_cached_ok (f : src_path) (code : string) (st st' : state) :
  read_text E f = ReadOk code ->
  process_file E f st = (Ok tt, st') ->
  cache_get (cache st') (rel_str f) = Some (PStr (md5 E code)).
Proof.
  intros Hread. rewrite (process_file_unfold E f code st Hread).
  destruct (cache_hit _ _ _) as [[|]|e] eqn:Hhit.
  - intros [= <-]. simpl. now apply cache_hit_true_inv.
  - intros Hrun. apply process_changed_frame in Hrun as [Hc _].
    simpl in Hc.
    destruct (setitem (rel_str f) (PStr (md5 E code)) (cache st)) as [c'|e] eqn:Hset.
    + subst c'. now apply (cache_get_stored _ _ _ _ Hset).
    + destruct Hc as [_ Hc]. discriminate Hc.
  - discriminate.
Qed.

End Frames.

(** ** Cache keys *)

Section Keys.

Lemma contains_slash_cons (c : ascii) (t : string) :
  PyStr.contains "/" (String c t)
  = (if ascii_dec "/" c then true else false) || PyStr.contains "/" t.
Proof.
  change (PyStr.contains "/" (String c t))
    with (PyStr.startswith "/" (String c t) || PyStr.contains "/" t).
  now rewrite startswith_slash.
Qed.

(** Two texts cut at their first separator agree piece by piece. *)
Lemma split_first_slash (x : string) : forall y r r',
  PyStr.contains "/" x = false -> PyStr.contains "/" y = false ->
  x ++ "/" ++ r = y ++ "/" ++ r' -> x = y /\ r = r'.
Proof.
  induction x as [|c x IH]; intros [|c' y] r r' Hx Hy Heq.
  - change (String "/" r = String "/" r') in Heq. injection Heq as ->. auto.
  - change (String "/" r = String c' (y ++ "/" ++ r')) in Heq.
    injection Heq as <- _. rewrite contains_slash_cons in Hy.
    destruct (ascii_dec "/" "/"); [discriminate Hy|congruence].
  - change (String c (x ++ "/" ++ r) = String "/" r') in Heq.
    injection Heq as -> _. rewrite contains_slash_cons in Hx.
    destruct (ascii_dec "/" "/"); [discriminate Hx|congruence].
  - change (String c (x ++ "/" ++ r) = String c' (y ++ "/" ++ r')) in Heq.
    injection Heq as -> Heq.
    rewrite contains_slash_cons in Hx, Hy.
    apply orb_false_iff in Hx as [_ Hx]. apply orb_false_iff in Hy as [_ Hy].
    destruct (IH y r r' Hx Hy Heq) as [-> ->]. auto.
Qed.

Lemma join_slash_inj (l1 : list string) : forall l2,
  l1 <> [] -> l2 <> [] ->
  forallb plain_name l1 = true -> forallb plain_name l2 = true ->
  PyStr.join "/" l1 = PyStr.join "/" l2 -> l1 = l2.
Proof.
  induction l1 as [|x l1 IH]; intros [|y l2] H1 H2 Hp1 Hp2 Heq; try congruence.
  simpl in Hp1, Hp2.
  apply andb_true_iff in Hp1 as [Hx Hp1]. apply andb_true_iff in Hp2 as [Hy Hp2].
  unfold plain_name in Hx, Hy. apply negb_true_iff in Hx, Hy.
  destruct l1 as [|x2 l1], l2 as [|y2 l2].
  - simpl in Heq. congruence.
  - change (x = y ++ "/" ++ PyStr.join "/" (y2 :: l2)) in Heq.
    rewrite Heq, !contains_slash_app in Hx.
    replace (PyStr.contains "/" "/") with true in Hx by reflexivity.
    rewrite orb_true_r in Hx. discriminate Hx.
  - change (x ++ "/" ++ PyStr.join "/" (x2 :: l1) = y) in Heq.
    rewrite <- Heq, !contains_slash_app in Hy.
    replace (PyStr.contains "/" "/") with true in Hy by reflexivity.
    rewrite orb_true_r in Hy. discriminate Hy.
  - change (x ++ "/" ++ PyStr.join "/" (x2 :: l1)
            = y ++ "/" ++ PyStr.join "/" (y2 :: l2)) in Heq.
    apply split_first_slash in Heq as [-> Heq]; try assumption.
    f_equal. apply IH; try discriminate; assumption.
Qed.

Lemma rel_str_inj (f g : src_path) :
  plain_path f = true -> plain_path g = true ->
  rel_str f = rel_str g -> f = g.
Proof.
  unfold plain_path, rel_str. intros Hf Hg Heq.
  apply join_slash_inj in Heq; try assumption.
  - unfold parts in Heq. apply app_inj_tail in Heq as [Hp Hn].
    destruct f, g. simpl in *. congruence.
  - unfold parts. intros H. now apply app_eq_nil in H as [_ H].
  - unfold parts. intros H. now apply app_eq_nil in H as [_ H].
Qed.

End Keys.

(** ** A second run *)

Section SecondRun.
Context (E : Env).

Lemma process_file_unreadable (f : src_path) (msg : string) (st : state) :
  read_text E f = ReadFailed msg ->
  process_file E f st
  = (Ok tt, mkState (cache st) (docs st)
              ((log st ++ [LogProcessing (rel_str f)]) ++ [LogReadError msg])).
Proof. intros Hread. unfold process_file. rewrite Hread. reflexivity. Qed.

Lemma process_all_cons (f : src_path) (rest : list src_path) (st : state) :
  process_all E (f :: rest) st
  = match process_file E f st with
    | (Ok _, st1) => process_all E rest st1
    | (Raise e, st1) => (Raise e, st1)
    end.
Proof. reflexivity. Qed.

(** The entry of a unit survives the processing of the other units. *)
Lemma process_all_keeps_entry (files : list src_path) :
  forall (f : src_path) (code : string) (st st' : state) (r : result unit),
  forallb plain_path files = true -> plain_path f = true ->
  read_text E f = ReadOk code ->
  process_all E files st = (r, st') ->
  cache_get (cache st) (rel_str f) = Some (PStr (md5 E code)) ->
  cache_get (cache st') (rel_str f) = Some (PStr (md5 E code)).
Proof.
  induction files as [|g rest IH]; intros f code st st' r Hplain Hf Hread Hrun Hc.
  - injection Hrun as <- <-. exact Hc.
  - simpl in Hplain. apply andb_true_iff in Hplain as [Hg Hrest].
    rewrite process_all_cons in Hrun.
    destruct (process_file E g st) as [r1 st1] eqn:Hone.
    assert (Hc1 : cache_get (cache st1) (rel_str f) = Some (PStr (md5 E code))).
    { destruct (decide (rel_str f = rel_str g)) as [Heq|Hne].
      - apply rel_str_inj in Heq; try assumption. subst g.
        eapply process_file_cached; try eassumption.
        apply (cache_get_dict _ (rel_str f)). rewrite Hc. eauto.
      - apply process_file_frame in Hone as [Hframe _].
        rewrite Hframe by exact Hne. exact Hc. }
    destruct r1 as [[]|e].
    + eapply IH; eassumption.
    + injection Hrun as <- <-. exact Hc1.
Qed.

(** Once all units have been processed, each readable one is cached under
    the fingerprint of its content. *)
Lemma process_all_cached (files : list src_path) :
  forall (st st' : state) (f : src_path) (code : string),
  forallb plain_path files = true ->
  process_all E files st = (Ok tt, st') ->
  In f files -> read_text E f = ReadOk code ->
  cache_get (cache st') (rel_str f) = Some (PStr (md5 E code)).
Proof.
  induction files as [|g rest IH]; intros st st' f code Hplain Hrun Hin Hread;
    [destruct Hin|].
  simpl in Hplain. apply andb_true_iff in Hplain as [Hg Hrest].
  rewrite process_all_cons in Hrun.
  destruct (process_file E g st) as [[[]|e] st1] eqn:Hone; [|discriminate Hrun].
  destruct Hin as [->|Hin].
  - eapply process_all_keeps_entry; try eassumption.
    eapply process_file_cached_ok; eassumption.
  - eapply IH; eassumption.
Qed.

(** With every readable unit cached under its current fingerprint, the
    loop only prints. *)
Lemma process_all_skips (files : list src_path) : forall st : state,
  (forall f code, In f files -> read_text E f = ReadOk code ->
     cache_get (cache st) (rel_str f) = Some (PStr (md5 E code))) ->
  process_all E files st
  = (Ok tt, mkState (cache st) (docs st) (log st ++ flat_map (skip_log E) files)).
Proof.
  induction files as [|g rest IH]; intros st Hc.
  - simpl. rewrite app_nil_r. destruct st; reflexivity.
  - rewrite process_all_cons.
    assert (Hone : process_file E g st
                   = (Ok tt, mkState (cache st) (docs st) (log st ++ skip_log E g))).
    { unfold skip_log. destruct (read_text E g) as [code|msg] eqn:Hread.
      - rewrite (process_file_hit E g code st Hread).
        + now rewrite <- app_assoc.
        + apply cache_hit_of_get. apply Hc; [now left|exact Hread].
      - rewrite (process_file_unreadable g msg st Hread). now rewrite <- app_assoc. }
    rewrite Hone, IH.
    + simpl. now rewrite <- app_assoc.
    + intros f code Hin. simpl. apply Hc. now right.
Qed.

End SecondRun.

(** ** The scan *)

Section Scan.

Lemma tree_ind_nested (P : tree -> Prop) :
  (forall name, P (TFile name)) ->
  (forall name children, Forall P children -> P (TDir name children)) ->
  forall t, P t.
Proof.
  intros Hfile Hdir. fix IH 1. intros [name|name children].
  - apply Hfile.
  - apply Hdir. induction children as [|c children IHc]; constructor.
    + apply IH.
    + exact IHc.
Qed.

Lemma in_walk_children (walk : tree -> list src_path) (children : list tree)
    (f : src_path) :
  In f (flat_map (only_files walk) children ++ flat_map (only_dirs walk) children)
  <-> exists c, In c children /\ In f (walk c).
Proof.
  rewrite in_app_iff, !in_flat_map. split.
  - intros [(c & Hc & Hf)|(c & Hc & Hf)]; exists c; split; try assumption;
      destruct c; simpl in Hf; (assumption || destruct Hf).
  - intros (c & Hc & Hf). destruct c as [name|name children'].
    + left. exists (TFile name). auto.
    + right. exists (TDir name children'). auto.
Qed.

Lemma located_prefix (root : list string) (t : tree) (f : src_path) :
  located root t f -> exists rest, rel_parent f = (root ++ rest)%list.
Proof.
  induction 1 as [root name|root name children c f Hc Hsub [rest Hrest]].
  - exists []. simpl. now rewrite app_nil_r.
  - exists (name :: rest). rewrite Hrest, <- app_assoc. reflexivity.
Qed.

(** What [walk] yields below [root]: the [.py] files located there, none of
    them under a pruned directory. *)
Lemma in_walk (t : tree) : forall root f,
  In f (walk root t)
  <-> located root t f
      /\ PyStr.endswith ".py" (fname f) = true
      /\ exists below, rel_parent f = (root ++ below)%list
                       /\ forallb (fun c => negb (skipped c)) below = true.
Proof.
  induction t as [name|name children IH] using tree_ind_nested; intros root f.
  - simpl. destruct (PyStr.endswith ".py" name) eqn:Hpy; simpl; split.
    + intros [<-|[]]. split; [constructor|]. split; [exact Hpy|].
      exists []. simpl. now rewrite app_nil_r.
    + intros (Hloc & _ & _). inversion Hloc; subst. now left.
    + intros [].
    + intros (Hloc & Hend & _). inversion Hloc; subst. simpl in Hend. congruence.
  - change (walk root (TDir name children))
      with (if skipped name then []
            else (flat_map (only_files (walk (root ++ [name])%list)) children
                  ++ flat_map (only_dirs (walk (root ++ [name])%list)) children)%list).
    rewrite Forall_forall in IH.
    assert (Hbelow : forall below, located root (TDir name children) f ->
              rel_parent f = (root ++ below)%list ->
              exists rest, below = name :: rest
                           /\ rel_parent f = ((root ++ [name]) ++ rest)%list).
    { intros below Hloc Hrel.
      inversion Hloc as [|? ? ? c ? Hc Hsub]; subst.
      destruct (located_prefix _ _ _ Hsub) as [rest Hrest].
      exists rest. split; [|exact Hrest].
      rewrite Hrel, <- app_assoc in Hrest. now apply app_inv_head in Hrest. }
    destruct (skipped name) eqn:Hskip; split.
    + intros [].
    + intros (Hloc & _ & below & Hrel & Hfree). exfalso.
      destruct (Hbelow below Hloc Hrel) as (rest & -> & _).
      simpl in Hfree. rewrite Hskip in Hfree. discriminate Hfree.
    + intros Hin. apply in_walk_children in Hin as (c & Hc & Hf).
      apply (IH c (proj2 (list_elem_of_In _ _) Hc)) in Hf
        as (Hloc & Hend & below & Hrel & Hfree).
      split; [econstructor; eassumption|]. split; [exact Hend|].
      exists (name :: below). rewrite Hrel, <- app_assoc. split; [reflexivity|].
      simpl. now rewrite Hskip.
    + intros (Hloc & Hend & below & Hrel & Hfree).
      destruct (Hbelow below Hloc Hrel) as (rest & -> & Hrest).
      inversion Hloc as [|? ? ? c ? Hc Hsub]; subst.
      apply in_walk_children. exists c. split; [exact Hc|].
      apply (IH c (proj2 (list_elem_of_In _ _) Hc)).
      split; [exact Hsub|]. split; [exact Hend|].
      exists rest. split; [exact Hrest|].
      simpl in Hfree. apply andb_true_iff in Hfree. apply Hfree.
Qed.

End Scan.

(** ** Stems and output paths *)

Section Stems.

Lemma rfind_dot_py (x : string) :
  PyStr.rfind_dot (x ++ ".py") = Some (String.length x).
Proof.
  induction x as [|c x IH]; [reflexivity|].
  change (PyStr.rfind_dot (String c x ++ ".py"))
    with (match PyStr.rfind_dot (x ++ ".py") with
          | Some i => Some (S i)
          | None => if Ascii.eqb c "."%char then Some O else None
          end).
  now rewrite IH.
Qed.

Lemma stem_py (x : string) : x <> "" -> stem (x ++ ".py") = x.
Proof.
  intros Hx. unfold stem. rewrite rfind_dot_py, length_app_str.
  destruct x as [|c x]; [congruence|].
  replace ((0 <? String.length (String c x))%nat) with true by reflexivity.
  replace ((String.length (String c x) <? String.length (String c x) + String.length ".py" - 1)%nat)
    with true.
  - apply take_app.
  - symmetry. apply Nat.ltb_lt. simpl. lia.
Qed.

Lemma endswith_split (p s : string) :
  PyStr.endswith p s = true -> exists x, s = x ++ p.
Proof.
  unfold PyStr.endswith. intros H. apply andb_true_iff in H as [_ H].
  apply String.eqb_eq in H.
  exists (PyStr.take (String.length s - String.length p) s).
  set (n := (String.length s - String.length p)%nat) in *.
  rewrite <- H. symmetry. apply take_drop.
Qed.

Lemma py_name_stem (name : string) :
  PyStr.endswith ".py" name = true -> name <> ".py" -> name = stem name ++ ".py".
Proof.
  intros Hend Hne. destruct (endswith_split _ _ Hend) as [x ->].
  rewrite stem_py; [reflexivity|]. intros ->. now apply Hne.
Qed.

End Stems.

(** ** The order of paths *)

Section PathOrder.

Lemma ascii_compare_refl (a : ascii) : Ascii.compare a a = Eq.
Proof. unfold Ascii.compare. apply N.compare_refl. Qed.

Lemma ascii_compare_lt_trans (a b c : ascii) :
  Ascii.compare a b = Lt -> Ascii.compare b c = Lt -> Ascii.compare a c = Lt.
Proof. unfold Ascii.compare. rewrite !N.compare_lt_iff. apply N.lt_trans. Qed.

Lemma str_compare_refl (s : string) : String.compare s s = Eq.
Proof. induction s as [|c s IH]; simpl; [reflexivity|]. now rewrite ascii_compare_refl. Qed.

Lemma str_compare_eq (s t : string) : String.compare s t = Eq -> s = t.
Proof. apply String.compare_eq_iff. Qed.

Lemma str_compare_lt_trans (s : string) : forall t u,
  String.compare s t = Lt -> String.compare t u = Lt -> String.compare s u = Lt.
Proof.
  induction s as [|a s IH]; intros [|b t] [|c u]; simpl; try congruence.
  destruct (Ascii.compare a b) eqn:Hab; try discriminate;
    destruct (Ascii.compare b c) eqn:Hbc; try discriminate.
  - apply Ascii.compare_eq_iff in Hab, Hbc. subst.
    rewrite ascii_compare_refl. apply IH.
  - apply Ascii.compare_eq_iff in Hab. subst. now rewrite Hbc.
  - apply Ascii.compare_eq_iff in Hbc. subst. now rewrite Hab.
  - now rewrite (ascii_compare_lt_trans a b c Hab Hbc).
Qed.

Lemma parts_compare_refl (a : list string) : parts_compare a a = Eq.
Proof. induction a as [|x a IH]; simpl; [reflexivity|]. now rewrite str_compare_refl. Qed.

Lemma parts_compare_eq (a : list string) : forall b, parts_compare a b = Eq -> a = b.
Proof.
  induction a as [|x a IH]; intros [|y b]; simpl; try congruence.
  destruct (String.compare x y) eqn:Hxy; try discriminate.
  intros H. apply str_compare_eq in Hxy. apply IH in H. congruence.
Qed.

Lemma parts_compare_lt_trans (a : list string) : forall b c,
  parts_compare a b = Lt -> parts_compare b c = Lt -> parts_compare a c = Lt.
Proof.
  induction a as [|x a IH]; intros [|y b] [|z c]; simpl; try congruence.
  destruct (String.compare x y) eqn:Hxy; try discriminate;
    destruct (String.compare y z) eqn:Hyz; try discriminate.
  - apply str_compare_eq in Hxy, Hyz. subst.
    rewrite str_compare_refl. apply IH.
  - apply str_compare_eq in Hxy. subst. now rewrite Hyz.
  - apply str_compare_eq in Hyz. subst. now rewrite Hxy.
  - now rewrite (str_compare_lt_trans x y z Hxy Hyz).
Qed.

Lemma parts_inj (f g : src_path) : parts f = parts g -> f = g.
Proof.
  unfold parts. intros H. apply app_inj_tail in H as [Hp Hn].
  destruct f, g. simpl in *. congruence.
Qed.

#[global] Instance path_le_trans : Transitive path_le.
Proof.
  intros f g h. unfold path_le. intros Hfg Hgh.
  destruct (parts_compare (parts f) (parts g)) eqn:H1; [| |congruence].
  - apply parts_compare_eq in H1. now rewrite H1.
  - destruct (parts_compare (parts g) (parts h)) eqn:H2; [| |congruence].
    + apply parts_compare_eq in H2. rewrite <- H2, H1. discriminate.
    + rewrite (parts_compare_lt_trans _ _ _ H1 H2). discriminate.
Qed.

#[global] Instance path_le_antisym : AntiSymm (=) path_le.
Proof.
  intros f g. unfold path_le. intros Hfg Hgf.
  rewrite (parts_compare_antisym (parts g) (parts f)) in Hfg.
  destruct (parts_compare (parts g) (parts f)) eqn:H; simpl in *; try congruence.
  symmetry. apply parts_inj, parts_compare_eq, H.
Qed.

Lemma sorted_perm_eq (files files' : list src_path) :
  Permutation files files' -> sorted files = sorted files'.
Proof.
  intros Hperm. apply (Sorted_unique path_le).
  - apply sorted_Sorted.
  - apply sorted_Sorted.
  - rewrite !sorted_Permutation. exact Hperm.
Qed.

End PathOrder.

(** ** Trimming *)

Section Trim.

Lemma lstrip_starts_unspaced (s : string) : starts_unspaced (PyStr.lstrip s).
Proof.
  induction s as [|c s IH]; simpl; [exact I|].
  destruct (PyStr.isspace c) eqn:Hc; [exact IH|exact Hc].
Qed.

Lemma lstrip_unspaced (s : string) : starts_unspaced s -> PyStr.lstrip s = s.
Proof. destruct s as [|c s]; simpl; [reflexivity|]. now intros ->. Qed.

Lemma rstrip_starts_unspaced (s : string) :
  starts_unspaced s -> starts_unspaced (PyStr.rstrip s).
Proof.
  destruct s as [|c s]; simpl; [auto|]. intros Hc.
  destruct (PyStr.rstrip s); [rewrite Hc|]; exact Hc.
Qed.

Lemma rstrip_idem (s : string) : PyStr.rstrip (PyStr.rstrip s) = PyStr.rstrip s.
Proof.
  induction s as [|c s IH]; simpl; [reflexivity|].
  destruct (PyStr.rstrip s) as [|a r] eqn:Hr.
  - destruct (PyStr.isspace c) eqn:Hc; simpl; [reflexivity|now rewrite Hc].
  - change (PyStr.rstrip (String c (String a r)))
      with (match PyStr.rstrip (String a r) with
            | EmptyString => if PyStr.isspace c then EmptyString else String c EmptyString
            | t' => String c t'
            end).
    now rewrite IH.
Qed.

Lemma strip_idem (s : string) : PyStr.strip (PyStr.strip s) = PyStr.strip s.
Proof.
  unfold PyStr.strip.
  rewrite (lstrip_unspaced (PyStr.rstrip (PyStr.lstrip s))).
  - apply rstrip_idem.
  - apply rstrip_starts_unspaced, lstrip_starts_unspaced.
Qed.

End Trim.

(** ** Whole runs *)

Section Runs.
Context (E : Env).

Lemma adds_dirs_file_at (d d' : gmap (list string) node) (q : list string) :
  adds_dirs d d' -> file_at d' q = file_at d q.
Proof.
  intros H. unfold file_at. destruct (H q) as [->|[-> ->]]; reflexivity.
Qed.

Lemma adds_dirs_keeps_dir (d d' : gmap (list string) node) (q : list string) :
  adds_dirs d d' -> d !! q = Some Dir -> d' !! q = Some Dir.
Proof. intros H Hq. destruct (H q) as [->|[Hn _]]; congruence. Qed.

Lemma out_path_not_named (f : src_path) (ext name : string) :
  PyStr.endswith ext name = false -> out_path f ext <> [name].
Proof.
  unfold out_path. intros Hend Heq.
  destruct (rel_parent f) as [|a [|b l]]; try discriminate Heq.
  injection Heq as <-. now rewrite endswith_app in Hend.
Qed.

Lemma artifacts_not_named (f : src_path) (name : string) :
  PyStr.endswith ".md" name = false ->
  PyStr.endswith ".yaml" name = false ->
  PyStr.endswith ".html" name = false ->
  ~ In [name] (artifacts f).
Proof.
  intros Hmd Hyaml Hhtml [H|[H|[H|[]]]]; revert H;
    now apply out_path_not_named.
Qed.

Lemma artifacts_not_root (f : src_path) : ~ In [] (artifacts f).
Proof.
  intros [H|[H|[H|[]]]]; apply (f_equal (@length _)) in H;
    rewrite out_path_length in H; discriminate H.
Qed.

(** Files that are no artifact of a processed unit keep their content, and
    directories stay. *)
Lemma process_all_frame (files : list src_path) :
  forall (st st' : state) (r : result unit) (q : list string),
  process_all E files st = (r, st') ->
  (forall f, In f files -> ~ In q (artifacts f)) ->
  file_at (docs st') q = file_at (docs st) q
  /\ (docs st !! q = Some Dir -> docs st' !! q = Some Dir).
Proof.
  induction files as [|g rest IH]; intros st st' r q Hrun Hq.
  - injection Hrun as <- <-. auto.
  - rewrite process_all_cons in Hrun.
    destruct (process_file E g st) as [r1 st1] eqn:Hone.
    apply process_file_frame in Hone as [_ (d1 & Hadds & Hd)].
    assert (Hstep : file_at (docs st1) q = file_at (docs st) q
                    /\ (docs st !! q = Some Dir -> docs st1 !! q = Some Dir)).
    { unfold file_at at 1. rewrite Hd by (apply Hq; now left).
      split; [apply (adds_dirs_file_at _ _ _ Hadds)|apply (adds_dirs_keeps_dir _ _ _ Hadds)]. }
    destruct r1 as [[]|e].
    + destruct (IH st1 st' r q Hrun) as [Hf Hdir].
      * intros f Hin. apply Hq. now right.
      * split; [now rewrite Hf|]. intros H. apply Hdir. now apply Hstep.
    + injection Hrun as <- <-. exact Hstep.
Qed.

(** The loop changes no cache entry but those of the units it is given,
    and it removes none. *)
Lemma process_all_cache (files : list src_path) :
  forall (st st' : state) (r : result unit) (k : string),
  process_all E files st = (r, st') ->
  (is_Some (cache_get (cache st) k) -> is_Some (cache_get (cache st') k))
  /\ ((forall f, In f files -> rel_str f <> k) ->
      cache_get (cache st') k = cache_get (cache st) k).
Proof.
  induction files as [|g rest IH]; intros st st' r k Hrun.
  - injection Hrun as <- <-. auto.
  - rewrite process_all_cons in Hrun.
    destruct (process_file E g st) as [r1 st1] eqn:Hone.
    assert (Hstep : (is_Some (cache_get (cache st) k)
                     -> is_Some (cache_get (cache st1) k))
                    /\ (rel_str g <> k ->
                        cache_get (cache st1) k = cache_get (cache st) k)).
    { pose proof (process_file_frame E g st st1 r1 Hone) as [Hframe _].
      split.
      - destruct (decide (k = rel_str g)) as [->|Hne]; [|now rewrite Hframe].
        destruct (read_text E g) as [code|msg] eqn:Hread.
        + intros Hsome. apply cache_get_dict in Hsome.
          rewrite (process_file_cached E g code st st1 r1 Hread Hsome Hone). eauto.
        + rewrite (process_file_unreadable E g msg st Hread) in Hone.
          injection Hone as <- <-. auto.
      - intros Hne. apply Hframe. congruence. }
    destruct r1 as [[]|e].
    + destruct (IH st1 st' r k Hrun) as [Hsome Hsame]. split.
      * intros H. apply Hsome. now apply Hstep.
      * intros Hne. rewrite Hsame by (intros f Hin; apply Hne; now right).
        apply Hstep. apply Hne. now left.
    + injection Hrun as <- <-. split; [apply Hstep|].
      intros Hne. apply Hstep. apply Hne. now left.
Qed.

Lemma mkdir_docs_unfold (st : state) :
  mkdir_docs st
  = match mkdir_one [] true (docs st) with
    | Ok d => (Ok tt, mkState (cache st) d (log st))
    | Raise e => (Raise e, st)
    end.
Proof. unfold mkdir_docs. step. destruct (mkdir_one [] true (docs st)); reflexivity. Qed.

(** The shape of a run that found units and ended normally. *)
Lemma run_ok_inv (st st' : state) :
  scan_files E <> [] ->
  run E st = (Ok tt, st') ->
  exists d0 built,
    mkdir_one [] true (docs st) = Ok d0
    /\ process_all E (scan_files E)
         (mkState (cache st) d0
            ((log st ++ [LogStart]) ++ [LogFound (length (scan_files E))]))
       = (Ok tt, built)
    /\ json_ok (cache built) = true
    /\ st' = mkState (cache built)
               (<[cache_file := File (cache_dumps E (cache built))]>
                  (<[["README.md"] := File (PyStr.join "
" (index_lines (docs built) (scan_files E)))]> (docs built)))
               ((log built ++ [LogIndex]) ++ [LogComplete]).
Proof.
  intros Hfiles Hrun. unfold run in Hrun.
  apply bind_ok_inv in Hrun as ([] & s1 & Hs1 & Hrun).
  unfold print in Hs1. injection Hs1 as <-.
  apply bind_ok_inv in Hrun as ([] & s2 & Hmk & Hrun).
  rewrite mkdir_docs_unfold in Hmk. simpl in Hmk.
  destruct (mkdir_one [] true (docs st)) as [d0|e] eqn:Hd0; [|discriminate Hmk].
  injection Hmk as <-.
  destruct (scan_files E) as [|f0 files] eqn:Hscan; [congruence|].
  apply bind_ok_inv in Hrun as ([] & s3 & Hs3 & Hrun).
  unfold print in Hs3. injection Hs3 as <-.
  apply bind_ok_inv in Hrun as ([] & built & Hall & Hrun).
  apply bind_ok_inv in Hrun as ([] & s5 & Hindex & Hrun).
  apply bind_ok_inv in Hrun as ([] & s6 & Hsave & Hrun).
  exists d0, built. split; [reflexivity|]. split; [exact Hall|].
  unfold generate_index in Hindex.
  apply bind_ok_inv in Hindex as (d & s4 & Hget & Hindex).
  unfold get_docs in Hget. injection Hget as <- <-.
  apply bind_ok_inv in Hindex as ([] & s4' & Hwrite & Hprint).
  apply write_text_ok_inv in Hwrite. subst s4'.
  unfold print in Hprint. injection Hprint as <-.
  unfold save_cache in Hsave.
  apply bind_ok_inv in Hsave as (c & s5' & Hget & Hsave).
  unfold get_cache in Hget. injection Hget as <- <-.
  simpl cache in Hsave.
  destruct (json_ok (cache built)) eqn:Hjson; [|discriminate Hsave].
  apply write_text_ok_inv in Hsave. subst s6.
  unfold print in Hrun. injection Hrun as <-.
  split; reflexivity.
Qed.

Lemma exists_insert_ne (p q : list string) (x : node) (d : gmap (list string) node) :
  p <> q -> exists_ p (<[q := x]> d) = exists_ p d.
Proof. intros Hne. unfold exists_. now rewrite lookup_insert_ne by congruence. Qed.

(** The index text depends on the disk only through the presence of the
    units' [.yaml] and [.html] files. *)
Lemma index_lines_ext (d1 d2 : gmap (list string) node) (files : list src_path) :
  (forall f ext, ext = ".yaml" \/ ext = ".html" ->
     exists_ (out_path f ext) d1 = exists_ (out_path f ext) d2) ->
  index_lines d1 files = index_lines d2 files.
Proof.
  intros Hext. unfold index_lines. f_equal. apply map_ext. intros f.
  unfold index_entry, index_links.
  now rewrite (Hext f ".yaml"), (Hext f ".html") by auto.
Qed.

End Runs.

Section RunSteps.
Context (E : Env).

Lemma run_unfold (st : state) :
  run E st
  = match mkdir_one [] true (docs st) with
    | Raise e => (Raise e, mkState (cache st) (docs st) (log st ++ [LogStart]))
    | Ok d0 =>
        match scan_files E with
        | [] => (Ok tt, mkState (cache st) d0 ((log st ++ [LogStart]) ++ [LogNoFiles]))
        | files =>
            (process_all E files ;;;
             generate_index files ;;;
             save_cache E ;;;
             print LogComplete)
              (mkState (cache st) d0
                 ((log st ++ [LogStart]) ++ [LogFound (length files)]))
        end
    end.
Proof.
  unfold run. unfold bind at 1. unfold print at 1.
  unfold bind at 1. rewrite mkdir_docs_unfold. simpl.
  destruct (mkdir_one [] true (docs st)); [|reflexivity].
  destruct (scan_files E); reflexivity.
Qed.

Lemma mkdir_one_at (p : list string) (last : bool) (d d' : gmap (list string) node) :
  mkdir_one p last d = Ok d' -> d' !! p = Some Dir.
Proof.
  unfold mkdir_one. destruct (d !! p) as [[c|]|] eqn:Hp; intros [= <-].
  - exact Hp.
  - apply lookup_insert_eq.
Qed.

Lemma mkdir_one_dir (p : list string) (last : bool) (d : gmap (list string) node) :
  d !! p = Some Dir -> mkdir_one p last d = Ok d.
Proof. unfold mkdir_one. now intros ->. Qed.

Lemma generate_index_unfold (files : list src_path) (st : state) :
  generate_index files st
  = match write_file ["README.md"] (PyStr.join "
" (index_lines (docs st) files)) (docs st) with
    | Ok d => (Ok tt, mkState (cache st) d (log st ++ [LogIndex]))
    | Raise e => (Raise e, st)
    end.
Proof.
  unfold generate_index. unfold bind at 1. unfold get_docs at 1. cbv iota beta.
  unfold bind at 1. rewrite write_text_unfold.
  destruct (write_file _ _ (docs st)); reflexivity.
Qed.

Lemma save_cache_unfold (st : state) :
  save_cache E st
  = if json_ok (cache st) then
      match write_file cache_file (cache_dumps E (cache st)) (docs st) with
      | Ok d => (Ok tt, mkState (cache st) d (log st))
      | Raise e => (Raise e, st)
      end
    else (Raise TypeError, st).
Proof.
  unfold save_cache. unfold bind at 1. unfold get_cache at 1. cbv iota beta.
  destruct (json_ok (cache st)); [apply write_text_unfold|reflexivity].
Qed.

(** A failing write leaves the disk as it was; a successful one touches
    only its own path. *)
Lemma write_file_file_at (p q : list string) (c : string)
    (d d' : gmap (list string) node) :
  write_file p c d = Ok d' -> q <> p -> file_at d' q = file_at d q.
Proof.
  intros Hw Hne. apply write_file_ok_inv in Hw. subst d'.
  unfold file_at. now rewrite lookup_insert_ne by congruence.
Qed.

End RunSteps.

(** * The claims *)

(** ** Change detection *)

(** C6 fails on the code when the cache file holds JSON that is no object.
    [_load_cache] guards [json.loads] with a [try] and falls back to [{}]
    (a file that is no JSON gives the empty cache, and the unit is
    processed), but it keeps whatever value a successful parse returns.
    With the file content [null] the cache is [None]: no entry exists for
    [src/main.py], so the unit is to be processed; the membership test of
    line 214 raises [TypeError] instead, no document is generated and [run]
    ends with the exception, before the index and the cache file are
    written. With the file content [[]] the test of line 214 lets the unit
    through and the assignment of line 224 raises [TypeError]: the prose
    document is not written either. *)
Lemma non_mapping_cache_raises :
  let E := Demo.reading_cache
             (Demo.env Demo.project Demo.answers Demo.one_path Demo.accepts) in
  let loaded (text : string) :=
    mkState (load_cache E (Demo.with_cache_file text)) (Demo.with_cache_file text) [] in
  (cache (loaded "{oops") = PDict []
   /\ fst (process_file E Demo.main_py (loaded "{oops")) = Ok tt
   /\ docs (snd (process_file E Demo.main_py (loaded "{oops"))) !! ["src"; "main.md"]
      = Some (File "# Doc"))
  /\ (cache (loaded "null") = PNone
      /\ cache_get (cache (loaded "null")) (rel_str Demo.main_py) = None
      /\ process_file E Demo.main_py (loaded "null")
         = (Raise TypeError, entered Demo.main_py (loaded "null"))
      /\ fst (run E (loaded "null")) = Raise TypeError
      /\ docs (snd (run E (loaded "null"))) !! ["src"; "main.md"] = None
      /\ docs (snd (run E (loaded "null"))) !! ["README.md"] = None
      /\ file_at (docs (snd (run E (loaded "null")))) cache_file = Some "null")
  /\ (cache (loaded "[]") = PList []
      /\ cache_get (cache (loaded "[]")) (rel_str Demo.main_py) = None
      /\ cache_hit (cache (loaded "[]")) (rel_str Demo.main_py) (md5 E Demo.main_code)
         = Ok false
      /\ process_file E Demo.main_py (loaded "[]")
         = (Raise TypeError, entered Demo.main_py (loaded "[]"))
      /\ fst (run E (loaded "[]")) = Raise TypeError
      /\ docs (snd (run E (loaded "[]"))) !! ["src"; "main.md"] = None).
Proof. vm_compute. repeat split. Qed.

(** ** Assembly of the aggregate specification *)


(** ** Failure of the prose request *)

(** C1, as stated, does not hold: with an unreachable endpoint the unit
    [src/main.py] of a fresh project is not skipped. [_call_llm] returns the
    text ["Error: timeout"], which is written as [docs/src/main.md]. *)
Lemma prose_failure_counterexample :
  ~ (forall (E : Env) (f : src_path) (code e : string) (st : state),
       read_text E f = ReadOk code ->
       post E (docs_prompt E code "python") = Failure e ->
       let st' := snd (process_file E f st) in
       docs st' !! out_path f ".md" = docs st !! out_path f ".md"
       /\ cache_get (cache st') (rel_str f) = cache_get (cache st) (rel_str f)).
Proof.
  intros Hclaim.
  destruct (Hclaim (Demo.env Demo.project Demo.times_out Demo.one_path Demo.accepts)
              Demo.main_py Demo.main_code "timeout" Demo.fresh eq_refl eq_refl)
    as [Hdocs _].
  vm_compute in Hdocs. discriminate Hdocs.
Qed.

(** C1, amended: when the prose request of a unit fails, [_call_llm]
    turns the failure into the text ["Error: <detail>"]; for a unit the
    cache does not skip (the cache is a mapping that does not hold the
    unit's current fingerprint), on an output tree that accepts its prose
    file (no regular file in the way of its directories, no directory at
    its path), that text is what ends up in the unit's prose artifact,
    whatever the later fragment step does. *)
Theorem prose_failure_written (E : Env) (f : src_path) (code e : string) (st : state) :
  read_text E f = ReadOk code ->
  misses (cache st) (rel_str f) (md5 E code) = true ->
  post E (docs_prompt E code "python") = Failure e ->
  dirs_free (docs st) (rel_parent f) = true ->
  is_dir_at (docs st) (out_path f ".md") = false ->
  generate_docs E code "python" = "Error: " ++ e
  /\ docs (snd (process_file E f st)) !! out_path f ".md"
     = Some (File ("Error: " ++ e)).
Proof.
  intros Hread Hmiss Hpost Hfree Hmd.
  assert (Hdoc : generate_docs E code "python" = "Error: " ++ e).
  { unfold generate_docs, call_llm. rewrite Hpost. reflexivity. }
  split; [exact Hdoc|].
  rewrite (process_file_miss E f code st Hread (misses_cache_hit _ _ _ Hmiss)).
  destruct (process_changed_prose E f code (md5 E code) (entered f st) _
              (misses_stored _ _ _ Hmiss) Hfree Hmd)
    as (d1 & _ & _ & _ & Hrun).
  rewrite Hrun, Hdoc. clear Hrun.
  destruct (api_like code) eqn:Hapi.
  - rewrite (after_prose_api E f code _ Hapi).
    destruct (process_fragment E f (fragment_of E code) _) as [r st'] eqn:Hfrag.
    apply process_fragment_frame in Hfrag as [_ Hframe]. simpl.
    rewrite Hframe.
    + simpl. apply lookup_insert_eq.
    + intros Heq. apply out_path_ext_inj in Heq. discriminate.
    + intros Heq. apply out_path_ext_inj in Heq. discriminate.
  - rewrite (after_prose_plain E f code _ Hapi). simpl. apply lookup_insert_eq.
Qed.

Lemma prose_failure_written_witness :
  let E := Demo.env Demo.project Demo.times_out Demo.one_path Demo.accepts in
  generate_docs E Demo.main_code "python" = "Error: timeout"
  /\ docs (snd (process_file E Demo.main_py Demo.fresh)) !! ["src"; "main.md"]
     = Some (File "Error: timeout").
Proof.
  intros E.
  exact (prose_failure_written E Demo.main_py Demo.main_code "timeout" Demo.fresh
           eq_refl eq_refl eq_refl eq_refl eq_refl).
Defined.

(** ** Order of the cache update and the write *)

(** C2 fails on the code: [self.cache[...] = current_hash] (line 224) runs
    before [mkdir] and [write_text] (lines 229-231). Here a regular file
    sits at [docs/src], so [mkdir] raises [FileExistsError]; the prose
    document is never written, and the in-memory cache already holds the
    unit's fingerprint. *)
Lemma cache_set_before_write :
  let E := Demo.env Demo.project Demo.answers Demo.one_path Demo.accepts in
  let st := mkState (PDict []) {[ [] := Dir; ["src"] := File "notes" ]} [] in
  let r := process_file E Demo.main_py st in
  fst r = Raise FileExistsError
  /\ docs (snd r) !! ["src"; "main.md"] = None
  /\ cache_get (cache st) "src/main.py" = None
  /\ cache_get (cache (snd r)) "src/main.py" = Some (PStr (md5 E Demo.main_code)).
Proof. vm_compute. repeat split. Qed.

(** ** Conditions for the spec and viewer artifacts *)




(** A fragment whose title is an unquoted date: the [.yaml] is written, then
    [json.dumps] raises [TypeError] inside [_create_swagger_html]; no
    [.html] is written and [run] ends with the exception. *)
Example dated_fragment_no_viewer :
  let E := Demo.env Demo.project Demo.answers Demo.dated Demo.accepts in
  let r := process_file E Demo.api_py Demo.fresh in
  fst r = Raise TypeError
  /\ exists_ ["src"; "api.yaml"] (docs (snd r)) = true
  /\ exists_ ["src"; "api.html"] (docs (snd r)) = false
  /\ fst (run E Demo.fresh) = Raise TypeError.
Proof. vm_compute. repeat split. Qed.

(** ** Fragments that are no mapping *)

(** C4 fails on the code: the collaborator answers [paths] and
    [yaml.safe_load] parses that as the plain string ["paths"]. The test
    [fragment and "paths" in fragment] is a substring test and passes, and
    [fragment.get] raises [AttributeError]. Nothing catches it: [run] ends
    with the exception, before the index and the cache file are written. *)
Lemma scalar_fragment_aborts_run :
  let E := Demo.env Demo.project (fun _ => Content "paths") Demo.scalar Demo.accepts in
  fragment_of E Demo.api_code = PStr "paths"
  /\ fst (process_file E Demo.api_py Demo.fresh) = Raise AttributeError
  /\ scan_files E = [Demo.main_py; Demo.api_py]
  /\ fst (run E Demo.fresh) = Raise AttributeError
  /\ docs (snd (run E Demo.fresh)) !! ["README.md"] = None
  /\ docs (snd (run E Demo.fresh)) !! cache_file = None.
Proof. vm_compute. repeat split. Qed.

(** Other shapes fail alike: a list holding ["paths"] has no [get], and a
    non-zero number is not iterable. *)
Lemma list_and_number_fragments_raise (E : Env) (f : src_path) (st : state) :
  fst (process_fragment E f (PList [PStr "paths"]) st) = Raise AttributeError
  /\ fst (process_fragment E f (PInt 5) st) = Raise TypeError.
Proof. split; reflexivity. Qed.

(** ** Validation *)

(** The steps after the [.yaml] (lines 268-271) do not look at the console:
    their outcome, the disk they leave and the lines they print are the
    same whatever was printed before. *)
Lemma page_steps_log (E : Env) (f : src_path) (spec c : pyval)
    (dd : gmap (list string) node) :
  exists r d' post,
    (d' = dd \/ exists html, create_swagger_html E spec = Ok html
                             /\ r = Ok tt
                             /\ d' = <[out_path f ".html" := File html]> dd)
    /\ forall lg,
         (html_content <- lift (create_swagger_html E spec) ;;
          write_text (out_path f ".html") html_content ;;;
          print (LogSwagger (out_path f ".html"))) (mkState c dd lg)
         = (r, mkState c d' (lg ++ post)).
Proof.
  destruct (create_swagger_html E spec) as [html|e] eqn:Hpage.
  - destruct (write_file (out_path f ".html") html dd) as [d2|e] eqn:Hw.
    + exists (Ok tt), d2, [LogSwagger (out_path f ".html")]. split.
      * right. exists html. apply write_file_ok_inv in Hw. auto.
      * intros lg. unfold bind at 1. unfold lift at 1.
        unfold bind at 1. rewrite write_text_unfold. simpl docs. rewrite Hw.
        reflexivity.
    + exists (Raise e), dd, []. split; [now left|].
      intros lg. unfold bind at 1. unfold lift at 1.
      unfold bind at 1. rewrite write_text_unfold. simpl docs. rewrite Hw.
      now rewrite app_nil_r.
  - exists (Raise e), dd, []. split; [now left|].
    intros lg. unfold bind at 1. unfold lift at 1. now rewrite app_nil_r.
Qed.

(** C8: when validation of the assembled specification fails (with
    [OpenAPIValidationError] or with any other exception), the spec file
    still holds the dump of that specification and the failure shows as a
    console line and nowhere else: the outcome of the unit, the cache and
    the whole disk are those of the same call with a validator that
    accepts the specification, and the console differs by that one line.
    In particular the viewer page is written whenever [json.dumps] takes
    the specification and no directory sits at its path. *)
Theorem validation_never_blocks (E : Env) (f : src_path) (code : string)
    (d : list (pyval * pyval)) (st : state) :
  read_text E f = ReadOk code ->
  misses (cache st) (rel_str f) (md5 E code) = true ->
  dirs_free (docs st) (rel_parent f) = true ->
  is_dir_at (docs st) (out_path f ".md") = false ->
  is_dir_at (docs st) (out_path f ".yaml") = false ->
  api_like code = true ->
  fragment_of E code = PDict d ->
  has_paths_key (PDict d) = true ->
  let spec := assemble (project_name E) (fname f) d in
  validate E spec <> Valid ->
  let r := process_file E f st in
  let passing := process_file (with_validator E (fun _ => Valid)) f st in
  docs (snd r) !! out_path f ".yaml" = Some (File (yaml_dump E spec))
  /\ (forall msg, validate E spec = Invalid msg ->
        In (LogValidationError msg) (log (snd r)))
  /\ (forall msg, validate E spec = Crashed msg ->
        In (LogValidationException msg) (log (snd r)))
  /\ fst r = fst passing
  /\ cache (snd r) = cache (snd passing)
  /\ docs (snd r) = docs (snd passing)
  /\ (exists pre post,
        log (snd passing) = (pre ++ post)%list
        /\ log (snd r) = (pre ++ validation_log (validate E spec) ++ post)%list)
  /\ (json_ok spec = true ->
      is_dir_at (docs st) (out_path f ".html") = false ->
      exists html,
        create_swagger_html E spec = Ok html
        /\ fst r = Ok tt
        /\ docs (snd r) !! out_path f ".html" = Some (File html)).
Proof.
  intros Hread Hmiss Hfree Hmd Hyaml Hapi Hfrag Hkey spec Hinvalid r passing.
  set (E0 := with_validator E (fun _ => Valid)) in *.
  pose proof (misses_cache_hit _ _ _ Hmiss) as Hhit.
  pose proof (misses_stored _ _ _ Hmiss) as Hset.
  assert (Hr : r = process_changed E f code (md5 E code) (entered f st)).
  { exact (process_file_miss E f code st Hread Hhit). }
  assert (Hp : passing = process_changed E0 f code (md5 E code) (entered f st)).
  { exact (process_file_miss E0 f code st Hread Hhit). }
  destruct (process_changed_api_yaml E f code (md5 E code) d (entered f st) _
              Hset Hfree Hmd Hyaml Hapi Hfrag Hkey)
    as (d1 & Hmk & Hat & Hother & Hrun).
  destruct (process_changed_api_yaml E0 f code (md5 E code) d (entered f st) _
              Hset Hfree Hmd Hyaml Hapi Hfrag Hkey)
    as (d1' & Hmk' & _ & _ & Hrun').
  assert (d1' = d1) by congruence. subst d1'.
  rewrite Hrun in Hr. rewrite Hrun' in Hp. clear Hrun Hrun'.
  assert (Hparent : (<[out_path f ".md" := File (generate_docs E code "python")]> d1)
                      !! rel_parent f = Some Dir).
  { rewrite lookup_insert_ne; [exact Hat|].
    intros Heq. apply (f_equal (@length _)) in Heq.
    rewrite out_path_length in Heq. lia. }
  assert (Hydir : is_dir_at (<[out_path f ".md" := File (generate_docs E code "python")]> d1)
                    (out_path f ".yaml") = false).
  { unfold is_dir_at. rewrite lookup_insert_ne.
    - rewrite Hother; [exact Hyaml|]. rewrite out_path_length. lia.
    - intros Heq. apply out_path_ext_inj in Heq. discriminate. }
  change (generate_docs E0 code "python") with (generate_docs E code "python") in Hp.
  change (parse_log E0 code) with (parse_log E code) in Hp.
  rewrite process_fragment_yaml in Hr by assumption.
  rewrite process_fragment_yaml in Hp by assumption.
  cbv zeta in Hr, Hp. fold spec in Hr.
  change (assemble (project_name E0) (fname f) d) with spec in Hp.
  change (validation_log (validate E0 spec)) with (@nil event) in Hp.
  change (yaml_dump E0 spec) with (yaml_dump E spec) in Hp.
  change (create_swagger_html E0 spec) with (create_swagger_html E spec) in Hp.
  destruct (page_steps_log E f spec
              (stored (cache st) (rel_str f) (md5 E code))
              (<[out_path f ".yaml" := File (yaml_dump E spec)]>
                 (<[out_path f ".md" := File (generate_docs E code "python")]> d1)))
    as (res & d' & post & Hd' & Hsteps).
  simpl cache in Hr, Hp. simpl docs in Hr, Hp. simpl log in Hr, Hp.
  rewrite Hsteps in Hr. rewrite Hsteps in Hp. subst r passing.
  rewrite Hr, Hp. clear Hr Hp. simpl.
  assert (Hlook : d' !! out_path f ".yaml" = Some (File (yaml_dump E spec))).
  { destruct Hd' as [->|(html & _ & _ & ->)].
    - apply lookup_insert_eq.
    - rewrite lookup_insert_ne, lookup_insert_eq; [reflexivity|].
      intros Heq. apply out_path_ext_inj in Heq. discriminate. }
  split; [exact Hlook|].
  split; [intros msg Hv; rewrite Hv; simpl; rewrite !in_app_iff; simpl; tauto|].
  split; [intros msg Hv; rewrite Hv; simpl; rewrite !in_app_iff; simpl; tauto|].
  split; [reflexivity|]. split; [reflexivity|]. split; [reflexivity|].
  split.
  - exists ((((log st ++ [LogProcessing (rel_str f)]) ++ [LogSaved (out_path f ".md")])
               ++ [LogDetecting]) ++ parse_log E code)%list,
           ([LogSpec (out_path f ".yaml")] ++ post)%list.
    split.
    + rewrite app_nil_r. now rewrite <- !app_assoc.
    + now rewrite <- !app_assoc.
  - intros Hjson Hhtml. change (json_ok spec = true) in Hjson.
    destruct (create_swagger_html E spec) as [html|e] eqn:Hpage.
    2: { unfold create_swagger_html in Hpage. rewrite Hjson in Hpage.
         simpl in Hpage. discriminate Hpage. }
    exists html. split; [reflexivity|].
    assert (Hw : write_file (out_path f ".html") html
                   (<[out_path f ".yaml" := File (yaml_dump E spec)]>
                      (<[out_path f ".md" := File (generate_docs E code "python")]> d1))
                 = Ok (<[out_path f ".html" := File html]>
                         (<[out_path f ".yaml" := File (yaml_dump E spec)]>
                            (<[out_path f ".md" := File (generate_docs E code "python")]> d1)))).
    { apply write_file_ok.
      - rewrite out_path_parent, lookup_insert_ne; [exact Hparent|].
        intros Heq. apply (f_equal (@length _)) in Heq.
        rewrite out_path_length in Heq. lia.
      - unfold is_dir_at. rewrite !lookup_insert_ne.
        + rewrite Hother; [exact Hhtml|]. rewrite out_path_length. lia.
        + intros Heq. apply out_path_ext_inj in Heq. discriminate.
        + intros Heq. apply out_path_ext_inj in Heq. discriminate. }
    specialize (Hsteps []).
    unfold bind at 1 in Hsteps. unfold lift at 1 in Hsteps.
    unfold bind at 1 in Hsteps. rewrite write_text_unfold in Hsteps.
    simpl docs in Hsteps. rewrite Hw in Hsteps.
    injection Hsteps as <- <- _. split; [reflexivity|]. apply lookup_insert_eq.
Qed.

Lemma validation_never_blocks_witness :
  let E := Demo.env Demo.project Demo.answers Demo.one_path Demo.rejects in
  let spec := assemble "Demo" "api.py" Demo.test_fragment in
  let r := process_file E Demo.api_py Demo.fresh in
  let passing := process_file (with_validator E (fun _ => Valid)) Demo.api_py Demo.fresh in
  docs (snd r) !! ["src"; "api.yaml"] = Some (File (yaml_dump E spec))
  /\ (forall msg, validate E spec = Invalid msg ->
        In (LogValidationError msg) (log (snd r)))
  /\ (forall msg, validate E spec = Crashed msg ->
        In (LogValidationException msg) (log (snd r)))
  /\ fst r = fst passing
  /\ cache (snd r) = cache (snd passing)
  /\ docs (snd r) = docs (snd passing)
  /\ (exists pre post,
        log (snd passing) = (pre ++ post)%list
        /\ log (snd r) = (pre ++ validation_log (validate E spec) ++ post)%list)
  /\ (json_ok spec = true ->
      is_dir_at (docs Demo.fresh) ["src"; "api.html"] = false ->
      exists html,
        create_swagger_html E spec = Ok html
        /\ fst r = Ok tt
        /\ docs (snd r) !! ["src"; "api.html"] = Some (File html)).
Proof.
  intros E spec.
  refine (validation_never_blocks E Demo.api_py Demo.api_code Demo.test_fragment
            Demo.fresh eq_refl eq_refl eq_refl eq_refl eq_refl eq_refl
            eq_refl eq_refl _).
  discriminate.
Defined.

(** ** Fence stripping *)

(** C5, as stated, does not hold: a prose answer that ends with a fenced
    example and starts with no fence, and has no blank at either end, loses
    its closing fence in [_call_llm], and so does a fragment text in
    [generate_openapi_fragment]. *)
Lemma trailing_fence_counterexample :
  let payload := "Usage:
```
add(1, 2)
```" in
  PyStr.startswith "```" payload = false
  /\ PyStr.endswith "```" payload = true
  /\ PyStr.strip payload = payload
  /\ cleanup payload = "Usage:
```
add(1, 2)"
  /\ cleanup payload <> payload
  /\ unfence payload <> payload.
Proof. vm_compute. repeat split; discriminate. Qed.

(** C5, amended: both clean-ups treat the two ends of a payload
    independently, the opening end first and then, on what is left, the
    closing end.

    The closing end, in both: when what is left ends with a fence, that
    fence is cut off, whether or not a fence was found at the start;
    otherwise the end is kept.

    The opening end in [generate_openapi_fragment]: with no fence at the
    start nothing is cut; a fence at the start that is not a [yaml] fence is
    cut; a [yaml] fence at the start is cut, and a fence that directly
    follows it is cut too.

    The opening end in [_call_llm]: with no fence at the start nothing is
    cut; a [markdown] fence at the start is cut; any other fence at the
    start is cut when [yaml] does not occur among the first ten characters
    and kept when it does. [_call_llm] then trims the blanks at both ends.

    So a payload [rest] followed by a fence, with no fence at its start,
    comes back as [rest] from [generate_openapi_fragment] and as [rest]
    trimmed from [_call_llm]; a payload with no fence at either end comes
    back as it is from [generate_openapi_fragment] and trimmed from
    [_call_llm]; a [body] between a [markdown] fence and a closing fence
    comes back trimmed from [_call_llm]; a [body] between a [yaml] fence and
    a closing fence comes back as it is from [generate_openapi_fragment]
    when [body] followed by the fence does not start with a fence. *)
Theorem fence_stripping :
  ((forall rest, strip_closer (rest ++ "```") = rest)
   /\ (forall s, PyStr.endswith "```" s = false -> strip_closer s = s))
  /\ ((forall s, PyStr.startswith "```" s = false -> unfence s = strip_closer s)
      /\ (forall s, PyStr.startswith "```" s = true ->
            PyStr.startswith "```yaml" s = false ->
            unfence s = strip_closer (PyStr.drop 3 s))
      /\ (forall s, PyStr.startswith "```yaml" s = true ->
            PyStr.startswith "```" (PyStr.drop 7 s) = false ->
            unfence s = strip_closer (PyStr.drop 7 s))
      /\ (forall s, PyStr.startswith "```yaml" s = true ->
            PyStr.startswith "```" (PyStr.drop 7 s) = true ->
            unfence s = strip_closer (PyStr.drop 3 (PyStr.drop 7 s))))
  /\ ((forall s, PyStr.startswith "```" s = false ->
         cleanup s = PyStr.strip (strip_closer s))
      /\ (forall s, PyStr.startswith "```markdown" s = true ->
            cleanup s = PyStr.strip (strip_closer (PyStr.drop 11 s)))
      /\ (forall s, PyStr.startswith "```" s = true ->
            PyStr.startswith "```markdown" s = false ->
            PyStr.contains "yaml" (PyStr.take 10 s) = false ->
            cleanup s = PyStr.strip (strip_closer (PyStr.drop 3 s)))
      /\ (forall s, PyStr.startswith "```" s = true ->
            PyStr.startswith "```markdown" s = false ->
            PyStr.contains "yaml" (PyStr.take 10 s) = true ->
            cleanup s = PyStr.strip (strip_closer s)))
  /\ ((forall rest, PyStr.startswith "```" (rest ++ "```") = false ->
         unfence (rest ++ "```") = rest
         /\ cleanup (rest ++ "```") = PyStr.strip rest)
      /\ (forall s, PyStr.startswith "```" s = false -> PyStr.endswith "```" s = false ->
            unfence s = s /\ cleanup s = PyStr.strip s)
      /\ (forall body, cleanup ("```markdown" ++ body ++ "```") = PyStr.strip body)
      /\ (forall body, PyStr.startswith "```" (body ++ "```") = false ->
            unfence ("```yaml" ++ body ++ "```") = body)).
Proof.
  assert (Hcut : forall rest, strip_closer (rest ++ "```") = rest).
  { intros rest. unfold strip_closer. rewrite endswith_app. apply drop_last_fence. }
  assert (Hkeep : forall s, PyStr.endswith "```" s = false -> strip_closer s = s).
  { intros s Hend. unfold strip_closer. now rewrite Hend. }
  assert (Hplain : forall s, PyStr.startswith "```" s = false ->
            unfence s = strip_closer s /\ cleanup s = PyStr.strip (strip_closer s)).
  { intros s Hno.
    pose proof (no_fence_no_tagged_fence "yaml" _ Hno) as Hyaml.
    pose proof (no_fence_no_tagged_fence "markdown" _ Hno) as Hmd.
    change ("```" ++ "yaml") with "```yaml" in Hyaml.
    change ("```" ++ "markdown") with "```markdown" in Hmd.
    unfold unfence, cleanup, strip_closer. rewrite Hyaml, Hmd, Hno. auto. }
  assert (Hmarkdown : forall s, PyStr.startswith "```markdown" s = true ->
            cleanup s = PyStr.strip (strip_closer (PyStr.drop 11 s))).
  { intros s Hmd. unfold cleanup, strip_closer. now rewrite Hmd. }
  assert (Hyaml7 : forall s, PyStr.startswith "```yaml" s = true ->
            PyStr.startswith "```" (PyStr.drop 7 s) = false ->
            unfence s = strip_closer (PyStr.drop 7 s)).
  { intros s Hy Hno. unfold unfence, strip_closer. now rewrite Hy, Hno. }
  split; [split; assumption|].
  split; [split; [|split; [|split]]|].
  - intros s Hno. apply Hplain, Hno.
  - intros s Hfence Hyaml. unfold unfence, strip_closer. now rewrite Hyaml, Hfence.
  - exact Hyaml7.
  - intros s Hy Hagain. unfold unfence, strip_closer. now rewrite Hy, Hagain.
  - split; [split; [|split; [|split]]|].
    + intros s Hno. apply Hplain, Hno.
    + exact Hmarkdown.
    + intros s Hfence Hmd Hyaml. unfold cleanup, strip_closer.
      now rewrite Hmd, Hfence, Hyaml.
    + intros s Hfence Hmd Hyaml. unfold cleanup, strip_closer.
      now rewrite Hmd, Hfence, Hyaml.
    + split; [|split; [|split]].
      * intros rest Hno. destruct (Hplain _ Hno) as [-> ->]. now rewrite Hcut.
      * intros s Hno Hend. destruct (Hplain _ Hno) as [-> ->]. now rewrite Hkeep.
      * intros body. rewrite Hmarkdown.
        -- change (PyStr.drop 11 ("```markdown" ++ body ++ "```")) with (body ++ "```").
           now rewrite Hcut.
        -- unfold PyStr.startswith. simpl.
           repeat (destruct (ascii_dec _ _); [|congruence]). apply prefix_nil.
      * intros body Hno. rewrite Hyaml7.
        -- change (PyStr.drop 7 ("```yaml" ++ body ++ "```")) with (body ++ "```").
           apply Hcut.
        -- unfold PyStr.startswith. simpl.
           repeat (destruct (ascii_dec _ _); [|congruence]). apply prefix_nil.
        -- exact Hno.
Qed.

Lemma fence_stripping_witness :
  (unfence ("paths: {}
# see
" ++ "```") = "paths: {}
# see
"
   /\ cleanup ("Usage:
```
add(1, 2)
" ++ "```") = PyStr.strip "Usage:
```
add(1, 2)
")
  /\ (unfence "paths: {}" = "paths: {}" /\ cleanup " # Doc " = PyStr.strip " # Doc ")
  /\ unfence ("```yaml" ++ "
paths: {}
" ++ "```") = "
paths: {}
"
  /\ unfence "```
paths: {}" = strip_closer "
paths: {}"
  /\ cleanup "```
yaml: 1
```" = PyStr.strip (strip_closer "```
yaml: 1
```")
  /\ cleanup "```
# Doc
```" = PyStr.strip (strip_closer "
# Doc
```").
Proof.
  destruct fence_stripping as (_ & (_ & Hbare & _) & (_ & _ & Hcut & Hkept) & Hends).
  destruct Hends as (Htrailing & Hnone & _ & Hyaml).
  split; [|split; [|split; [|split; [|split]]]].
  - split.
    + exact (proj1 (Htrailing "paths: {}
# see
" eq_refl)).
    + exact (proj2 (Htrailing "Usage:
```
add(1, 2)
" eq_refl)).
  - split.
    + exact (proj1 (Hnone "paths: {}" eq_refl eq_refl)).
    + exact (proj2 (Hnone " # Doc " eq_refl eq_refl)).
  - exact (Hyaml "
paths: {}
" eq_refl).
  - exact (Hbare "```
paths: {}" eq_refl eq_refl).
  - exact (Hkept "```
yaml: 1
```" eq_refl eq_refl eq_refl).
  - exact (Hcut "```
# Doc
```" eq_refl eq_refl eq_refl).
Defined.

(** ** The index *)

(** C9, as stated, does not hold: the only source file of the project was
    deleted since the last run, so the scan finds nothing, [run] returns
    at its [if not files] guard, and [docs/README.md] keeps the index of the
    previous run (one entry) instead of being regenerated (no entry). *)
Lemma stale_index_counterexample :
  ~ (forall (E : Env) (st st' : state),
       run E st = (Ok tt, st') ->
       exists d,
         docs st' !! ["README.md"]
         = Some (File (PyStr.join "
" (index_header ++ map (index_entry d) (sorted (scan_files E)))))).
Proof.
  intros Hclaim.
  set (E := Demo.env [TFile "notes.txt"] Demo.answers Demo.one_path Demo.accepts).
  assert (Hok : fst (run E Demo.previous) = Ok tt) by (vm_compute; reflexivity).
  destruct (run E Demo.previous) as [r st'] eqn:Hrun. simpl in Hok. subst r.
  destruct (Hclaim E Demo.previous st' Hrun) as [d Hd].
  apply (f_equal snd) in Hrun. simpl in Hrun. subst st'.
  vm_compute in Hd. discriminate Hd.
Qed.

(** C9, amended: take a run that discovers at least one unit and ends
    without an exception, and let [built] be the state in which the loop
    over the units, started on the output directory of the run, has left
    the disk. Then [docs/README.md] holds the header followed by exactly one
    entry per discovered unit, in the order of [sorted(files)] (paths
    compared component by component); the entry of a unit carries the
    OpenAPI link exactly when the unit's [.yaml] exists in [built], and the
    Swagger UI link exactly when its [.html] exists in [built]; and the
    [.yaml] and [.html] files that exist in [built] are those that exist
    when the run has ended. *)
Theorem index_regenerated (E : Env) (st st' : state) :
  scan_files E <> [] ->
  run E st = (Ok tt, st') ->
  exists d0,
    mkdir_one [] true (docs st) = Ok d0
    /\ let before :=
         mkState (cache st) d0
           ((log st ++ [LogStart]) ++ [LogFound (length (scan_files E))]) in
       let built := snd (process_all E (scan_files E) before) in
       fst (process_all E (scan_files E) before) = Ok tt
       /\ docs st' !! ["README.md"]
          = Some (File (PyStr.join "
" (index_header ++ map (index_entry (docs built)) (sorted (scan_files E)))))
       /\ length (map (index_entry (docs built)) (sorted (scan_files E)))
          = length (scan_files E)
       /\ Permutation (sorted (scan_files E)) (scan_files E)
       /\ Sorted path_le (sorted (scan_files E))
       /\ (forall f,
             index_entry (docs built) f
             = entry_line (rel_str f) (doc_rel f)
                 (if exists_ (out_path f ".yaml") (docs built)
                  then Some (openapi_target f) else None)
                 (if exists_ (out_path f ".html") (docs built)
                  then Some (swagger_target f) else None))
       /\ (forall f ext, ext = ".yaml" \/ ext = ".html" ->
             exists_ (out_path f ext) (docs st')
             = exists_ (out_path f ext) (docs built)).
Proof.
  intros Hfiles Hrun.
  destruct (run_ok_inv E st st' Hfiles Hrun) as (d0 & built & Hmk & Hall & _ & ->).
  exists d0. split; [exact Hmk|]. cbv zeta. rewrite Hall. simpl fst. simpl snd.
  split; [reflexivity|]. split.
  { simpl docs. rewrite lookup_insert_ne by discriminate.
    rewrite lookup_insert_eq. reflexivity. }
  split; [rewrite length_map; apply Permutation_length, sorted_Permutation|].
  split; [apply sorted_Permutation|]. split; [apply sorted_Sorted|]. split.
  - intros f. unfold index_entry, index_links, entry_line.
    destruct (exists_ (out_path f ".yaml") (docs built)),
             (exists_ (out_path f ".html") (docs built)); reflexivity.
  - intros f ext Hext. simpl docs.
    rewrite exists_insert_ne by (apply out_path_not_named; destruct Hext as [->| ->]; reflexivity).
    apply exists_insert_ne.
    apply out_path_not_named; destruct Hext as [->| ->]; reflexivity.
Qed.

Lemma index_regenerated_witness :
  let E := Demo.env Demo.project Demo.answers Demo.one_path Demo.accepts in
  let st' := snd (run E Demo.fresh) in
  exists d0,
    mkdir_one [] true (docs Demo.fresh) = Ok d0
    /\ let before :=
         mkState (cache Demo.fresh) d0
           ((log Demo.fresh ++ [LogStart]) ++ [LogFound (length (scan_files E))]) in
       let built := snd (process_all E (scan_files E) before) in
       fst (process_all E (scan_files E) before) = Ok tt
       /\ docs st' !! ["README.md"]
          = Some (File (PyStr.join "
" (index_header ++ map (index_entry (docs built)) (sorted (scan_files E)))))
       /\ length (map (index_entry (docs built)) (sorted (scan_files E)))
          = length (scan_files E)
       /\ Permutation (sorted (scan_files E)) (scan_files E)
       /\ Sorted path_le (sorted (scan_files E))
       /\ (forall f,
             index_entry (docs built) f
             = entry_line (rel_str f) (doc_rel f)
                 (if exists_ (out_path f ".yaml") (docs built)
                  then Some (openapi_target f) else None)
                 (if exists_ (out_path f ".html") (docs built)
                  then Some (swagger_target f) else None))
       /\ (forall f ext, ext = ".yaml" \/ ext = ".html" ->
             exists_ (out_path f ext) (docs st')
             = exists_ (out_path f ext) (docs built)).
Proof.
  intros E st'.
  apply (index_regenerated E Demo.fresh st').
  - intros Hnone. vm_compute in Hnone. discriminate Hnone.
  - vm_compute. reflexivity.
Defined.

(** C10: [_generate_index] writes, for a unit [f] in a subdirectory, an
    entry whose prose link goes to [<relative directory>/<stem>.md], while
    its OpenAPI and Swagger UI links (present when the unit's [.yaml] and
    [.html] exist) go to the bare [<stem>.yaml] and [<stem>.html]: these
    two targets hold no directory component and differ from the paths of
    the two artifacts relative to the index. *)
Theorem index_links_basename_only (files : list src_path) (f : src_path)
    (st st' : state) :
  generate_index files st = (Ok tt, st') ->
  In f files ->
  rel_parent f <> [] ->
  PyStr.contains "/" (fname f) = false ->
  file_at (docs st') ["README.md"]
  = Some (PyStr.join "
" (index_lines (docs st) files))
  /\ In (index_entry (docs st) f) (index_lines (docs st) files)
  /\ index_entry (docs st) f
     = entry_line (rel_str f)
         (PyStr.join "/" (rel_parent f) ++ "/" ++ stem (fname f) ++ ".md")
         (if exists_ (out_path f ".yaml") (docs st)
          then Some (stem (fname f) ++ ".yaml") else None)
         (if exists_ (out_path f ".html") (docs st)
          then Some (stem (fname f) ++ ".html") else None)
  /\ PyStr.contains "/" (stem (fname f) ++ ".yaml") = false
  /\ PyStr.contains "/" (stem (fname f) ++ ".html") = false
  /\ stem (fname f) ++ ".yaml" <> PyStr.join "/" (out_path f ".yaml")
  /\ stem (fname f) ++ ".html" <> PyStr.join "/" (out_path f ".html").
Proof.
  intros Hrun Hin Hsub Hname.
  assert (Hstem := stem_no_slash _ Hname).
  assert (Hbare : forall ext, PyStr.contains "/" ext = false ->
            PyStr.contains "/" (stem (fname f) ++ ext) = false).
  { intros ext Hext. now rewrite contains_slash_app, Hstem, Hext. }
  assert (Hfull : forall ext,
            PyStr.contains "/" (PyStr.join "/" (out_path f ext)) = true).
  { intros ext. unfold out_path. rewrite join_snoc by exact Hsub.
    rewrite !contains_slash_app.
    replace (PyStr.contains "/" "/") with true by reflexivity.
    now rewrite orb_true_r. }
  split.
  { rewrite generate_index_unfold in Hrun.
    destruct (write_file ["README.md"] _ (docs st)) as [d|e] eqn:Hw;
      [|discriminate Hrun].
    apply write_file_ok_inv in Hw. injection Hrun as <-. subst d.
    unfold file_at. simpl docs. now rewrite lookup_insert_eq. }
  split.
  { unfold index_lines. apply in_or_app. right. apply in_map.
    apply (Permutation_in _ (Permutation_sym (sorted_Permutation files))), Hin. }
  split.
  { assert (Hdoc : doc_rel f
                   = PyStr.join "/" (rel_parent f) ++ "/" ++ stem (fname f) ++ ".md").
    { unfold doc_rel, out_path. now rewrite join_snoc. }
    unfold index_entry, index_links, entry_line. rewrite Hdoc.
    unfold openapi_target, swagger_target.
    destruct (exists_ (out_path f ".yaml") (docs st)),
             (exists_ (out_path f ".html") (docs st)); reflexivity. }
  split; [now apply Hbare|]. split; [now apply Hbare|].
  split; intros Heq; specialize (Hfull ".yaml") + specialize (Hfull ".html");
    rewrite <- Heq, Hbare in Hfull; try reflexivity; discriminate Hfull.
Qed.

Lemma index_links_basename_only_witness :
  let st := mkState (PDict [])
              {[ [] := Dir; ["src"] := Dir;
                 ["src"; "api.yaml"] := File "<yaml>";
                 ["src"; "api.html"] := File "<html>" ]} [] in
  let st' := snd (generate_index [Demo.main_py; Demo.api_py] st) in
  file_at (docs st') ["README.md"]
  = Some (PyStr.join "
" (index_lines (docs st) [Demo.main_py; Demo.api_py]))
  /\ In (index_entry (docs st) Demo.api_py)
       (index_lines (docs st) [Demo.main_py; Demo.api_py])
  /\ index_entry (docs st) Demo.api_py
     = "- [src/api.py](src/api.md) ([OpenAPI](api.yaml) | [Swagger UI](api.html))"
  /\ "api.yaml" <> PyStr.join "/" (out_path Demo.api_py ".yaml")
  /\ "api.html" <> PyStr.join "/" (out_path Demo.api_py ".html").
Proof.
  intros st st'.
  destruct (index_links_basename_only [Demo.main_py; Demo.api_py] Demo.api_py st st')
    as (Hfile & Hin & Hentry & _ & _ & Hyaml & Hhtml).
  - vm_compute. reflexivity.
  - right. now left.
  - discriminate.
  - reflexivity.
  - split; [exact Hfile|]. split; [exact Hin|]. split; [exact Hentry|].
    split; [exact Hyaml|exact Hhtml].
Defined.

(** * Properties beyond the claims *)

(** ** Keys and paths *)

(** X1: two different units whose path components hold no separator have
    different cache keys. *)
Theorem cache_keys_distinct (f g : src_path) :
  plain_path f = true -> plain_path g = true -> f <> g -> rel_str f <> rel_str g.
Proof. intros Hf Hg Hne Heq. apply Hne. now apply rel_str_inj. Qed.

Lemma cache_keys_distinct_witness : rel_str Demo.main_py <> rel_str Demo.api_py.
Proof.
  apply (cache_keys_distinct Demo.main_py Demo.api_py); [reflexivity|reflexivity|].
  discriminate.
Defined.

(** X2: the mapping documented at line 227, [src/utils/foo.py] to
    [docs/src/utils/foo.md]: for a name [x.py] with a non-empty [x] the
    stem is [x], so the three artifacts are [x.md], [x.yaml] and [x.html]
    in the mirrored directory. *)
Theorem py_unit_artifacts (parent : list string) (x ext : string) :
  x <> "" ->
  stem (x ++ ".py") = x
  /\ out_path (mkPath parent (x ++ ".py")) ext = (parent ++ [(x ++ ext)%string])%list.
Proof.
  intros Hx. split; [now apply stem_py|].
  unfold out_path. simpl. now rewrite stem_py.
Qed.

Lemma py_unit_artifacts_witness :
  stem "foo.py" = "foo"
  /\ out_path (mkPath ["src"; "utils"] "foo.py") ".md" = ["src"; "utils"; "foo.md"].
Proof.
  apply (py_unit_artifacts ["src"; "utils"] "foo" ".md"). discriminate.
Defined.

Lemma append_inv_tail (a b e : string) : a ++ e = b ++ e -> a = b.
Proof.
  intros H.
  assert (Hlen : String.length a = String.length b).
  { apply (f_equal String.length) in H. rewrite !length_app_str in H. lia. }
  rewrite <- (take_app a e), <- (take_app b e), H, Hlen. reflexivity.
Qed.

(** X3: two different units found by the scan (names ending in [.py],
    other than the bare name [.py]) never share an artifact path. *)
Theorem artifact_paths_distinct (f g : src_path) (ext : string) :
  PyStr.endswith ".py" (fname f) = true -> fname f <> ".py" ->
  PyStr.endswith ".py" (fname g) = true -> fname g <> ".py" ->
  f <> g -> out_path f ext <> out_path g ext.
Proof.
  intros Hf Hf' Hg Hg' Hne Heq. apply Hne.
  unfold out_path in Heq. apply app_inj_tail in Heq as [Hparent Hstem].
  apply append_inv_tail in Hstem.
  pose proof (py_name_stem _ Hf Hf') as Hnf.
  pose proof (py_name_stem _ Hg Hg') as Hng.
  rewrite Hstem, <- Hng in Hnf.
  destruct f, g. simpl in *. congruence.
Qed.

Lemma artifact_paths_distinct_witness :
  out_path (mkPath ["src"] "api.py") ".yaml" <> out_path (mkPath ["src"] "api.v2.py") ".yaml".
Proof.
  apply artifact_paths_distinct; try reflexivity; discriminate.
Defined.

(** The bare name [.py] is the exception: its stem is the whole name, which
    is also the stem of [.py.py]. *)
Example bare_py_collides :
  out_path (mkPath [] ".py") ".md" = out_path (mkPath [] ".py.py") ".md".
Proof. reflexivity. Qed.

(** ** The scan *)

(** X4: [_scan_files] finds exactly the files of the tree whose name ends
    in [.py] and that lie under no directory named in [skip_dirs], at any
    depth. *)
Theorem scan_finds_exactly (E : Env) (f : src_path) :
  In f (scan_files E)
  <-> (exists t, In t (source E) /\ located [] t f)
      /\ PyStr.endswith ".py" (fname f) = true
      /\ forallb (fun c => negb (skipped c)) (rel_parent f) = true.
Proof.
  unfold scan_files. rewrite in_walk_children. split.
  - intros (t & Ht & Hf). apply in_walk in Hf as (Hloc & Hend & below & Hrel & Hfree).
    simpl in Hrel. subst below. eauto 6.
  - intros ((t & Ht & Hloc) & Hend & Hfree). exists t. split; [exact Ht|].
    apply in_walk. split; [exact Hloc|]. split; [exact Hend|].
    exists (rel_parent f). auto.
Qed.

Lemma scan_finds_exactly_witness :
  let E := Demo.env Sample.mixed Demo.answers Demo.one_path Demo.accepts in
  In (mkPath ["src"] "main.py") (scan_files E)
  /\ ~ In (mkPath ["src"; "venv"] "site.py") (scan_files E)
  /\ ~ In (mkPath ["src"] "notes.txt") (scan_files E).
Proof.
  intros E. split; [|split].
  - apply (proj2 (scan_finds_exactly E (mkPath ["src"] "main.py"))).
    split; [|split; reflexivity].
    eexists. split; [left; reflexivity|].
    eapply located_dir; [left; reflexivity|]. constructor.
  - intros Hin.
    apply (proj1 (scan_finds_exactly E (mkPath ["src"; "venv"] "site.py"))) in Hin
      as (_ & _ & Hfree).
    discriminate Hfree.
  - intros Hin.
    apply (proj1 (scan_finds_exactly E (mkPath ["src"] "notes.txt"))) in Hin
      as (_ & Hend & _).
    discriminate Hend.
Defined.

(** ** Isolation of units *)



(** X6: the loop over the units removes no cache entry, and leaves the
    entries of paths that are not among the units as they were; entries of
    source files that no longer exist are carried along. *)
Theorem cache_never_forgets (E : Env) (files : list src_path) (st : state) (k : string) :
  let st' := snd (process_all E files st) in
  (is_Some (cache_get (cache st) k) -> is_Some (cache_get (cache st') k))
  /\ ((forall f, In f files -> rel_str f <> k) ->
      cache_get (cache st') k = cache_get (cache st) k).
Proof.
  destruct (process_all E files st) as [r st'] eqn:Hrun. simpl.
  exact (process_all_cache E files st st' r k Hrun).
Qed.

Lemma cache_never_forgets_witness :
  let E := Demo.env Demo.project Demo.answers Demo.one_path Demo.accepts in
  let st := mkState (PDict [(PStr "src/deleted.py", PStr "md5:gone")]) ∅ [] in
  cache_get (cache (snd (process_all E (scan_files E) st))) "src/deleted.py"
  = Some (PStr "md5:gone").
Proof.
  intros E st.
  apply (proj2 (cache_never_forgets E (scan_files E) st "src/deleted.py")).
  intros f [<-|[<-|[]]]; discriminate.
Defined.

(** ** Running again *)

(** X7: take a readable unit and a cache that is a mapping. Once the unit
    has gone through [_process_file], whether that call returned (also
    with an error text as the unit's document) or ended with an exception
    of a step after the prose request (the directories, a write, a
    fragment that is no mapping, [json.dumps]), the cache holds the
    fingerprint of its content and the next call in the same process skips
    it. *)
Theorem processed_once_then_skipped (E : Env) (f : src_path) (code : string) (st : state) :
  read_text E f = ReadOk code ->
  (exists d, cache st = PDict d) ->
  let st1 := snd (process_file E f st) in
  cache_get (cache st1) (rel_str f) = Some (PStr (md5 E code))
  /\ process_file E f st1
     = (Ok tt, mkState (cache st1) (docs st1)
                 ((log st1 ++ [LogProcessing (rel_str f)]) ++ [LogSkipping])).
Proof.
  intros Hread Hdict. destruct (process_file E f st) as [r st1] eqn:Hrun. simpl.
  pose proof (process_file_cached E f code st st1 r Hread Hdict Hrun) as Hc.
  split; [exact Hc|].
  apply (process_file_hit E f code st1 Hread). now apply cache_hit_of_get.
Qed.

Lemma processed_once_then_skipped_witness :
  let E := Demo.env Demo.project Demo.times_out Demo.one_path Demo.accepts in
  let st1 := snd (process_file E Demo.main_py Demo.fresh) in
  docs st1 !! ["src"; "main.md"] = Some (File "Error: timeout")
  /\ cache_get (cache st1) "src/main.py" = Some (PStr "md5:print('hello')")
  /\ process_file E Demo.main_py st1
     = (Ok tt, mkState (cache st1) (docs st1)
                 ((log st1 ++ [LogProcessing "src/main.py"]) ++ [LogSkipping])).
Proof.
  intros E st1. split; [reflexivity|].
  refine (processed_once_then_skipped E Demo.main_py Demo.main_code Demo.fresh eq_refl _).
  exists []. reflexivity.
Defined.

(** X8: when the loop over the units has ended normally, running it again
    over the same units with the same sources regenerates nothing: the
    cache and the disk stay as they are and every unit only prints that it
    is skipped (or that it cannot be read). *)
Theorem second_pass_skips_all (E : Env) (files : list src_path) (st st1 : state) :
  forallb plain_path files = true ->
  process_all E files st = (Ok tt, st1) ->
  process_all E files st1
  = (Ok tt, mkState (cache st1) (docs st1) (log st1 ++ flat_map (skip_log E) files)).
Proof.
  intros Hplain Hrun. apply process_all_skips.
  intros f code Hin Hread. eapply process_all_cached; eassumption.
Qed.

Lemma second_pass_skips_all_witness :
  let E := Demo.env Demo.project Demo.answers Demo.one_path Demo.accepts in
  let st1 := snd (process_all E (scan_files E) Demo.fresh) in
  process_all E (scan_files E) st1
  = (Ok tt, mkState (cache st1) (docs st1)
              (log st1 ++ [LogProcessing "src/main.py"; LogSkipping;
                           LogProcessing "src/api.py"; LogSkipping])).
Proof.
  intros E st1.
  apply (second_pass_skips_all E (scan_files E) Demo.fresh st1).
  - reflexivity.
  - vm_compute. reflexivity.
Defined.

(** ** The index *)

(** X9: the index does not depend on the order in which the scan found the
    units: two file lists with the same elements give the same lines. *)
Theorem index_order_independent (d : gmap (list string) node)
    (files files' : list src_path) :
  Permutation files files' -> index_lines d files = index_lines d files'.
Proof.
  intros Hperm. unfold index_lines. now rewrite (sorted_perm_eq files files' Hperm).
Qed.

Lemma index_order_independent_witness :
  index_lines ∅ [Demo.main_py; Demo.api_py] = index_lines ∅ [Demo.api_py; Demo.main_py].
Proof.
  apply index_order_independent. apply perm_swap.
Defined.

(** ** Degraded fragments *)

(** X10: when the fragment text of an API-like unit that the cache (a
    mapping) does not skip does not parse ([yaml.safe_load] raises), the
    unit still ends normally: the prose document is written and the cache
    entry set, the failure is printed, and the unit's [.yaml] and [.html]
    are left as they were. *)
Theorem parse_failure_degrades (E : Env) (f : src_path) (code msg : string) (st : state) :
  read_text E f = ReadOk code ->
  misses (cache st) (rel_str f) (md5 E code) = true ->
  dirs_free (docs st) (rel_parent f) = true ->
  is_dir_at (docs st) (out_path f ".md") = false ->
  api_like code = true ->
  yaml_safe_load E (unfence (call_llm E (openapi_prompt E code))) = ParseError msg ->
  exists st',
    process_file E f st = (Ok tt, st')
    /\ docs st' !! out_path f ".md" = Some (File (generate_docs E code "python"))
    /\ cache_get (cache st') (rel_str f) = Some (PStr (md5 E code))
    /\ docs st' !! out_path f ".yaml" = docs st !! out_path f ".yaml"
    /\ docs st' !! out_path f ".html" = docs st !! out_path f ".html"
    /\ In (LogParseFailed msg) (log st').
Proof.
  intros Hread Hmiss Hfree Hmd Hapi Hparse.
  rewrite (process_file_miss E f code st Hread (misses_cache_hit _ _ _ Hmiss)).
  pose proof (misses_stored _ _ _ Hmiss) as Hset.
  destruct (process_changed_prose E f code (md5 E code) (entered f st) _ Hset Hfree Hmd)
    as (d1 & _ & _ & Hother & Hrun).
  rewrite Hrun, (after_prose_api E f code _ Hapi).
  assert (Hnone : fragment_of E code = PNone).
  { unfold fragment_of. now rewrite Hparse. }
  assert (Hlog : parse_log E code = [LogParseFailed msg]).
  { unfold parse_log. now rewrite Hparse. }
  rewrite Hnone, Hlog. eexists. split; [reflexivity|]. simpl.
  split; [apply lookup_insert_eq|].
  split; [apply (cache_get_stored _ _ _ _ Hset)|].
  assert (Hkeep : forall ext, ext <> ".md" ->
            (<[out_path f ".md" := File (generate_docs E code "python")]> d1)
              !! out_path f ext = docs st !! out_path f ext).
  { intros ext Hext. rewrite lookup_insert_ne.
    - apply Hother. rewrite out_path_length. lia.
    - intros Heq. apply out_path_ext_inj in Heq. congruence. }
  split; [apply Hkeep; discriminate|]. split; [apply Hkeep; discriminate|].
  rewrite !in_app_iff. simpl. tauto.
Qed.

Lemma parse_failure_degrades_witness :
  let E := Demo.env Demo.project Demo.answers
             (fun _ => ParseError "mapping values are not allowed here")
             Demo.accepts in
  exists st',
    process_file E Demo.api_py Demo.fresh = (Ok tt, st')
    /\ docs st' !! ["src"; "api.md"] = Some (File "# Doc")
    /\ cache_get (cache st') "src/api.py" = Some (PStr (md5 E Demo.api_code))
    /\ docs st' !! ["src"; "api.yaml"] = None
    /\ docs st' !! ["src"; "api.html"] = None
    /\ In (LogParseFailed "mapping values are not allowed here") (log st').
Proof.
  intros E.
  exact (parse_failure_degrades E Demo.api_py Demo.api_code
           "mapping values are not allowed here" Demo.fresh
           eq_refl eq_refl eq_refl eq_refl eq_refl eq_refl).
Defined.

(** ** The answer of the collaborator *)

(** X11: a successful answer leaves [_call_llm] trimmed: stripping it
    again changes nothing. *)
Theorem call_llm_trimmed (E : Env) (prompt content : string) :
  post E prompt = Content content ->
  PyStr.strip (call_llm E prompt) = call_llm E prompt.
Proof.
  intros Hpost. unfold call_llm. rewrite Hpost. unfold cleanup. apply strip_idem.
Qed.

Lemma call_llm_trimmed_witness :
  let E := Demo.env Demo.project (fun _ => Content "
  # Doc
") Demo.one_path Demo.accepts in
  PyStr.strip (call_llm E "prompt") = call_llm E "prompt".
Proof.
  intros E. exact (call_llm_trimmed E "prompt" _ eq_refl).
Defined.

(** ** Whole runs *)

Lemma cache_file_no_artifact (f : src_path) : ~ In cache_file (artifacts f).
Proof. apply artifacts_not_named; reflexivity. Qed.

Lemma readme_no_spec_file (f : src_path) (ext : string) :
  ext = ".yaml" \/ ext = ".html" -> out_path f ext <> ["README.md"].
Proof. intros [->| ->]; apply out_path_not_named; reflexivity. Qed.

Lemma cache_file_no_spec_file (f : src_path) (ext : string) :
  ext = ".yaml" \/ ext = ".html" -> out_path f ext <> cache_file.
Proof. intros [->| ->]; apply out_path_not_named; reflexivity. Qed.

(** X12: a run that finds no unit ends normally after making sure the
    output directory exists: nothing else on disk changes (no index, no
    cache file) and the cache in memory stays as loaded. *)
Theorem run_without_units (E : Env) (st : state) :
  scan_files E = [] ->
  is_file (docs st) [] = false ->
  exists d0,
    run E st = (Ok tt, mkState (cache st) d0 ((log st ++ [LogStart]) ++ [LogNoFiles]))
    /\ d0 !! [] = Some Dir
    /\ forall q, q <> [] -> d0 !! q = docs st !! q.
Proof.
  intros Hscan Hroot.
  destruct (mkdir_one_ok (docs st) [] true Hroot) as (d0 & Hmk & Hat & Hother & _).
  exists d0. rewrite run_unfold, Hmk, Hscan. auto.
Qed.

Lemma run_without_units_witness :
  let E := Demo.env [TFile "notes.txt"] Demo.answers Demo.one_path Demo.accepts in
  exists d0,
    run E Demo.previous
    = (Ok tt, mkState (PDict []) d0 [LogStart; LogNoFiles])
    /\ d0 !! [] = Some Dir
    /\ forall q, q <> [] -> d0 !! q = docs Demo.previous !! q.
Proof.
  intros E. exact (run_without_units E Demo.previous eq_refl eq_refl).
Defined.

(** X13: a run that found units and ended normally has written the dump
    of its final cache to the cache file; if [json] reads that dump back,
    [_load_cache] of the next [AutoDoc] object yields that cache. *)
Theorem run_persists_cache (E : Env) (st st' : state) :
  scan_files E <> [] ->
  run E st = (Ok tt, st') ->
  file_at (docs st') cache_file = Some (cache_dumps E (cache st'))
  /\ (cache_loads E (cache_dumps E (cache st')) = Some (cache st') ->
      load_cache E (docs st') = cache st').
Proof.
  intros Hfiles Hrun.
  destruct (run_ok_inv E st st' Hfiles Hrun) as (d0 & built & _ & _ & _ & ->).
  unfold file_at, load_cache. simpl. rewrite lookup_insert_eq.
  split; [reflexivity|]. now intros ->.
Qed.

Lemma run_persists_cache_witness :
  let st' := snd (run Sample.env Demo.fresh) in
  file_at (docs st') cache_file = Some "{two entries}"
  /\ load_cache Sample.env (docs st') = cache st'.
Proof.
  intros st'.
  destruct (run_persists_cache Sample.env Demo.fresh st') as [Hfile Hload].
  - intros Hnone. vm_compute in Hnone. discriminate Hnone.
  - vm_compute. reflexivity.
  - split; [exact Hfile|]. apply Hload. vm_compute. reflexivity.
Defined.

(** X14: when [run] ends with an exception, whichever step raised it, the
    cache file on disk still has the content it had before the run: what
    the run had added to the cache in memory is not saved. *)
Theorem aborted_run_keeps_cache_file (E : Env) (st : state) (e : exn) :
  fst (run E st) = Raise e ->
  file_at (docs (snd (run E st))) cache_file = file_at (docs st) cache_file.
Proof.
  destruct (run E st) as [r st'] eqn:Hrun. simpl. intros ->.
  rewrite run_unfold in Hrun.
  destruct (mkdir_one [] true (docs st)) as [d0|e0] eqn:Hmk;
    [|injection Hrun as _ <-; reflexivity].
  pose proof (adds_dirs_file_at _ _ cache_file (mkdir_one_adds _ _ _ _ Hmk)) as Hd0.
  destruct (scan_files E) as [|f0 files]; [discriminate|].
  set (all := f0 :: files) in *.
  unfold bind at 1 in Hrun.
  destruct (process_all E all _) as [r1 built] eqn:Hall.
  assert (Hbuilt : file_at (docs built) cache_file = file_at (docs st) cache_file).
  { apply process_all_frame with (q := cache_file) in Hall as [Hf _].
    - rewrite Hf. exact Hd0.
    - intros f _. apply cache_file_no_artifact. }
  destruct r1 as [[]|e1]; [|injection Hrun as _ <-; exact Hbuilt].
  unfold bind at 1 in Hrun. rewrite generate_index_unfold in Hrun.
  destruct (write_file ["README.md"] _ (docs built)) as [d1|e1] eqn:Hreadme;
    [|injection Hrun as _ <-; exact Hbuilt].
  assert (Hd1 : file_at d1 cache_file = file_at (docs st) cache_file).
  { rewrite (write_file_file_at _ cache_file _ _ _ Hreadme); [exact Hbuilt|discriminate]. }
  unfold bind at 1 in Hrun. rewrite save_cache_unfold in Hrun. simpl in Hrun.
  destruct (json_ok (cache built)); [|injection Hrun as _ <-; exact Hd1].
  destruct (write_file cache_file _ d1) as [d2|e2]; [discriminate|].
  injection Hrun as _ <-. exact Hd1.
Qed.

Lemma aborted_run_keeps_cache_file_witness :
  let E := Demo.env Demo.project (fun _ => Content "paths") Demo.scalar Demo.accepts in
  let st := mkState (PDict []) {[ [] := Dir; cache_file := File "{}" ]} [] in
  file_at (docs (snd (run E st))) cache_file = Some "{}".
Proof.
  intros E st.
  exact (aborted_run_keeps_cache_file E st AttributeError eq_refl).
Defined.

Lemma run_unfold_units (E : Env) (st : state) :
  scan_files E <> [] ->
  run E st
  = match mkdir_one [] true (docs st) with
    | Raise e => (Raise e, mkState (cache st) (docs st) (log st ++ [LogStart]))
    | Ok d0 =>
        (process_all E (scan_files E) ;;;
         generate_index (scan_files E) ;;;
         save_cache E ;;;
         print LogComplete)
          (mkState (cache st) d0
             ((log st ++ [LogStart]) ++ [LogFound (length (scan_files E))]))
    end.
Proof.
  intros Hfiles. rewrite run_unfold.
  destruct (mkdir_one [] true (docs st)); [|reflexivity].
  destruct (scan_files E); [congruence|reflexivity].
Qed.

(** X15: idempotence of a whole run. After a run that found units and
    ended normally, a second run started from what the first left on disk
    (the cache read back from the cache file) with unchanged sources and an
    unchanged collaborator regenerates nothing: every unit is skipped, and
    the index and the cache file are rewritten with the content they
    already had, so the disk and the cache are the same as before. *)
Theorem second_run_changes_nothing (E : Env) (st st' : state) (console : list event) :
  forallb plain_path (scan_files E) = true ->
  scan_files E <> [] ->
  run E st = (Ok tt, st') ->
  cache_loads E (cache_dumps E (cache st')) = Some (cache st') ->
  run E (mkState (load_cache E (docs st')) (docs st') console)
  = (Ok tt,
     mkState (cache st') (docs st')
       (((((console ++ [LogStart]) ++ [LogFound (length (scan_files E))])
            ++ flat_map (skip_log E) (scan_files E)) ++ [LogIndex]) ++ [LogComplete])).
Proof.
  intros Hplain Hfiles Hrun Hjson.
  destruct (run_ok_inv E st st' Hfiles Hrun)
    as (d0 & built & Hmk & Hall & Hdumps & Hst').
  assert (Hload : load_cache E (docs st') = cache st').
  { rewrite Hst' in Hjson |- *. unfold load_cache. simpl in *.
    rewrite lookup_insert_eq. now rewrite Hjson. }
  assert (Hroot : docs built !! [] = Some Dir).
  { apply process_all_frame with (q := []) in Hall as [_ Hdir].
    - apply Hdir. simpl. eapply mkdir_one_at, Hmk.
    - intros f _. apply artifacts_not_root. }
  assert (Hcached : forall f code, In f (scan_files E) -> read_text E f = ReadOk code ->
            cache_get (cache built) (rel_str f) = Some (PStr (md5 E code))).
  { intros f code Hin Hread. eapply process_all_cached; eassumption. }
  set (text := PyStr.join "
" (index_lines (docs built) (scan_files E))) in *.
  set (dump := cache_dumps E (cache built)) in *.
  set (on_disk := <[cache_file := File dump]>
                    (<[["README.md"] := File text]> (docs built))) in *.
  assert (Hc : cache st' = cache built) by (subst st'; reflexivity).
  assert (Hd : docs st' = on_disk) by (subst st'; reflexivity).
  rewrite Hload, Hc, Hd. clear Hload Hrun Hjson Hst' Hc Hd st'.
  assert (Hroot' : on_disk !! [] = Some Dir).
  { unfold on_disk. rewrite !lookup_insert_ne by discriminate. exact Hroot. }
  assert (Hreadme : on_disk !! ["README.md"] = Some (File text)).
  { unfold on_disk. rewrite lookup_insert_ne by discriminate. apply lookup_insert_eq. }
  assert (Hcfile : on_disk !! cache_file = Some (File dump)).
  { unfold on_disk. apply lookup_insert_eq. }
  assert (Htext : PyStr.join "
" (index_lines on_disk (scan_files E)) = text).
  { unfold text. f_equal. apply index_lines_ext. intros f ext Hext.
    unfold on_disk. rewrite !exists_insert_ne; [reflexivity| |].
    - now apply readme_no_spec_file.
    - now apply cache_file_no_spec_file. }
  rewrite (run_unfold_units E _ Hfiles). simpl docs. simpl cache. simpl log.
  rewrite (mkdir_one_dir [] true on_disk Hroot').
  unfold bind at 1. rewrite process_all_skips by exact Hcached.
  unfold bind at 1. rewrite generate_index_unfold. simpl docs. rewrite Htext.
  assert (Hw1 : write_file ["README.md"] text on_disk = Ok on_disk).
  { unfold write_file. simpl removelast. rewrite Hroot', Hreadme.
    f_equal. now apply insert_id. }
  rewrite Hw1.
  unfold bind at 1. rewrite save_cache_unfold. simpl docs. simpl cache.
  rewrite Hdumps.
  assert (Hw2 : write_file cache_file dump on_disk = Ok on_disk).
  { unfold write_file. simpl removelast. rewrite Hroot', Hcfile.
    f_equal. now apply insert_id. }
  fold dump. rewrite Hw2. reflexivity.
Qed.

Lemma second_run_changes_nothing_witness :
  let st' := snd (run Sample.env Demo.fresh) in
  run Sample.env (mkState (load_cache Sample.env (docs st')) (docs st') [])
  = (Ok tt,
     mkState (cache st') (docs st')
       [LogStart; LogFound 2;
        LogProcessing "src/main.py"; LogSkipping;
        LogProcessing "src/api.py"; LogSkipping;
        LogIndex; LogComplete]).
Proof.
  intros st'.
  apply (second_run_changes_nothing Sample.env Demo.fresh st' []).
  - reflexivity.
  - intros Hnone. vm_compute in Hnone. discriminate Hnone.
  - vm_compute. reflexivity.
  - vm_compute. reflexivity.
Defined.

(** ** The two clean-ups in sequence *)

Lemma rstrip_cons_unspaced (c : ascii) (t : string) :
  PyStr.isspace c = false -> PyStr.rstrip (String c t) = String c (PyStr.rstrip t).
Proof. intros Hc. simpl. destruct (PyStr.rstrip t); [now rewrite Hc|reflexivity]. Qed.

Lemma rstrip_yaml_fence (t : string) :
  PyStr.rstrip ("```yaml" ++ t) = "```yaml" ++ PyStr.rstrip t.
Proof.
  change ("```yaml" ++ t)
    with (String "`" (String "`" (String "`" (String "y" (String "a"
            (String "m" (String "l" t))))))).
  rewrite !rstrip_cons_unspaced by reflexivity. reflexivity.
Qed.

Lemma yaml_in_first_ten (t : string) :
  PyStr.contains "yaml" (PyStr.take 10 ("```yaml" ++ t)) = true.
Proof.
  change (PyStr.take 10 ("```yaml" ++ t)) with ("```yaml" ++ PyStr.take 3 t).
  change (PyStr.contains "yaml" ("```yaml" ++ PyStr.take 3 t))
    with (PyStr.startswith "yaml" ("```yaml" ++ PyStr.take 3 t)
          || (PyStr.startswith "yaml" ("``yaml" ++ PyStr.take 3 t)
              || (PyStr.startswith "yaml" ("`yaml" ++ PyStr.take 3 t)
                  || (PyStr.startswith "yaml" ("yaml" ++ PyStr.take 3 t)
                      || PyStr.contains "yaml" ("aml" ++ PyStr.take 3 t))))).
  assert (Hhere : PyStr.startswith "yaml" ("yaml" ++ PyStr.take 3 t) = true).
  { unfold PyStr.startswith.
    change (String.prefix "yaml" ("yaml" ++ PyStr.take 3 t))
      with (if ascii_dec "y" "y" then
              if ascii_dec "a" "a" then
                if ascii_dec "m" "m" then
                  if ascii_dec "l" "l" then String.prefix "" (PyStr.take 3 t)
                  else false
                else false
              else false
            else false).
    repeat (destruct (ascii_dec _ _); [|congruence]). apply prefix_nil. }
  rewrite Hhere. now rewrite !orb_true_r.
Qed.

Lemma starts_with_yaml_fence (t : string) :
  PyStr.startswith "```yaml" ("```yaml" ++ t) = true.
Proof.
  unfold PyStr.startswith.
  change (String.prefix "```yaml" ("```yaml" ++ t))
    with (if ascii_dec "`" "`" then
            if ascii_dec "`" "`" then
              if ascii_dec "`" "`" then
                if ascii_dec "y" "y" then
                  if ascii_dec "a" "a" then
                    if ascii_dec "m" "m" then
                      if ascii_dec "l" "l" then String.prefix "" t else false
                    else false
                  else false
                else false
              else false
            else false
          else false).
  repeat (destruct (ascii_dec _ _); [|congruence]). apply prefix_nil.
Qed.

(** X16: how [_call_llm] and [generate_openapi_fragment] share the work
    on an answer wrapped in a [yaml] fence. [_call_llm] leaves the opening
    fence in place (the text [yaml] occurs among the first ten characters)
    and removes the closing one and the trailing blanks;
    [generate_openapi_fragment] then removes the opening fence. What
    reaches [yaml.safe_load] is the enclosed text without its trailing
    blanks, provided that text neither starts nor ends with a fence of its
    own. *)
Theorem fenced_yaml_reaches_parser (E : Env) (code body : string) :
  post E (openapi_prompt E code) = Content ("```yaml" ++ body ++ "```") ->
  PyStr.startswith "```" (PyStr.rstrip body) = false ->
  PyStr.endswith "```" (PyStr.rstrip body) = false ->
  call_llm E (openapi_prompt E code) = "```yaml" ++ PyStr.rstrip body
  /\ unfence (call_llm E (openapi_prompt E code)) = PyStr.rstrip body.
Proof.
  intros Hpost Hstart Hend.
  assert (Hcall : call_llm E (openapi_prompt E code) = "```yaml" ++ PyStr.rstrip body).
  { unfold call_llm. rewrite Hpost. unfold cleanup.
    replace (PyStr.startswith "```markdown" ("```yaml" ++ body ++ "```")) with false
      by reflexivity.
    assert (Hfence : PyStr.startswith "```" ("```yaml" ++ body ++ "```") = true).
    { apply (prefix_app_inv "```" "yaml"), starts_with_yaml_fence. }
    rewrite Hfence, yaml_in_first_ten. simpl negb. cbv iota.
    replace ("```yaml" ++ body ++ "```") with (("```yaml" ++ body) ++ "```")
      by apply append_assoc_str.
    rewrite endswith_app, drop_last_fence.
    unfold PyStr.strip.
    replace (PyStr.lstrip ("```yaml" ++ body)) with ("```yaml" ++ body) by reflexivity.
    apply rstrip_yaml_fence. }
  split; [exact Hcall|].
  rewrite Hcall. unfold unfence.
  rewrite starts_with_yaml_fence.
  change (PyStr.drop 7 ("```yaml" ++ PyStr.rstrip body)) with (PyStr.rstrip body).
  now rewrite Hstart, Hend.
Qed.

Lemma fenced_yaml_reaches_parser_witness :
  let E := Demo.env Demo.project
             (fun _ => Content ("```yaml" ++ "
paths: {}
" ++ "```"))
             Demo.one_path Demo.accepts in
  call_llm E (openapi_prompt E Demo.api_code) = "```yaml" ++ "
paths: {}"
  /\ unfence (call_llm E (openapi_prompt E Demo.api_code)) = "
paths: {}".
Proof.
  intros E.
  exact (fenced_yaml_reaches_parser E Demo.api_code "
paths: {}
" eq_refl eq_refl eq_refl).
Defined.

(** ** Change detection on a mapping *)

(** X17: with a cache that is a mapping, a readable unit is skipped (two
    console lines, nothing else changes) when the cache holds the
    fingerprint of its current content under its relative path, and it is
    processed when the cache has no entry for it or holds anything else:
    the fingerprint is stored under its path and, on an output tree that
    accepts the file, the generated document is written as its prose
    artifact. *)
Theorem mapping_cache_decides (E : Env) (f : src_path) (code : string)
    (d : list (pyval * pyval)) (st : state) :
  read_text E f = ReadOk code ->
  cache st = PDict d ->
  (dict_lookup (rel_str f) d = Some (PStr (md5 E code)) ->
     process_file E f st
     = (Ok tt, mkState (cache st) (docs st)
                 ((log st ++ [LogProcessing (rel_str f)]) ++ [LogSkipping])))
  /\ (dict_lookup (rel_str f) d <> Some (PStr (md5 E code)) ->
      let st' := snd (process_file E f st) in
      cache st' = PDict (dict_set (rel_str f) (PStr (md5 E code)) d)
      /\ (dirs_free (docs st) (rel_parent f) = true ->
          is_dir_at (docs st) (out_path f ".md") = false ->
          docs st' !! out_path f ".md" = Some (File (generate_docs E code "python")))).
Proof.
  intros Hread Hd. split.
  - intros Hget. apply (process_file_hit E f code st Hread).
    apply cache_hit_of_get. rewrite Hd. exact Hget.
  - intros Hne.
    assert (Hmiss : misses (cache st) (rel_str f) (md5 E code) = true).
    { apply misses_spec. eauto. }
    rewrite (process_file_miss E f code st Hread (misses_cache_hit _ _ _ Hmiss)).
    assert (Hset : setitem (rel_str f) (PStr (md5 E code)) (cache (entered f st))
                   = Ok (PDict (dict_set (rel_str f) (PStr (md5 E code)) d))).
    { simpl. now rewrite Hd. }
    destruct (process_changed E f code (md5 E code) (entered f st)) as [r st'] eqn:Hrun.
    simpl. split.
    + apply process_changed_frame in Hrun as [Hc _]. now rewrite Hset in Hc.
    + intros Hfree Hmd.
      destruct (process_changed_prose E f code (md5 E code) (entered f st) _
                  Hset Hfree Hmd) as (d1 & _ & _ & _ & Hprose).
      rewrite Hprose in Hrun. clear Hprose.
      destruct (api_like code) eqn:Hapi.
      * rewrite (after_prose_api E f code _ Hapi) in Hrun.
        apply process_fragment_frame in Hrun as [_ Hframe].
        rewrite Hframe.
        -- simpl. apply lookup_insert_eq.
        -- intros Heq. apply out_path_ext_inj in Heq. discriminate.
        -- intros Heq. apply out_path_ext_inj in Heq. discriminate.
      * rewrite (after_prose_plain E f code _ Hapi) in Hrun.
        injection Hrun as _ <-. simpl. apply lookup_insert_eq.
Qed.

Lemma mapping_cache_decides_witness :
  let E := Demo.env Demo.project Demo.answers Demo.one_path Demo.accepts in
  let cached := mkState (PDict [(PStr "src/main.py", PStr "md5:print('hello')")]) ∅ [] in
  let stale := mkState (PDict [(PStr "src/main.py", PStr "md5:print('bye')")]) ∅ [] in
  process_file E Demo.main_py cached
  = (Ok tt, mkState (cache cached) ∅ [LogProcessing "src/main.py"; LogSkipping])
  /\ (cache (snd (process_file E Demo.main_py stale))
      = PDict [(PStr "src/main.py", PStr "md5:print('hello')")]
      /\ docs (snd (process_file E Demo.main_py stale)) !! ["src"; "main.md"]
         = Some (File "# Doc"))
  /\ (cache (snd (process_file E Demo.main_py Demo.fresh))
      = PDict [(PStr "src/main.py", PStr "md5:print('hello')")]
      /\ docs (snd (process_file E Demo.main_py Demo.fresh)) !! ["src"; "main.md"]
         = Some (File "# Doc")).
Proof.
  intros E cached stale. split; [|split].
  - exact (proj1 (mapping_cache_decides E Demo.main_py Demo.main_code _ cached
                    eq_refl eq_refl) eq_refl).
  - destruct (proj2 (mapping_cache_decides E Demo.main_py Demo.main_code _ stale
                       eq_refl eq_refl)) as [Hc Hd]; [discriminate|].
    split; [exact Hc|exact (Hd eq_refl eq_refl)].
  - destruct (proj2 (mapping_cache_decides E Demo.main_py Demo.main_code _ Demo.fresh
                       eq_refl eq_refl)) as [Hc Hd]; [discriminate|].
    split; [exact Hc|exact (Hd eq_refl eq_refl)].
Defined.
